(** * Product configurator: compatibility rule resolution

    A shallow embedding of the rule admission endpoint
    ([create_compatibility_rule]) and of the availability endpoint
    ([get_available_options]) of [main.py], together with the queries of
    [data_layer.py] they call and the per-statement transaction handling of
    [db.py].

    The relational store is a record of four tables, each a list of rows in
    scan order.  A SQL [SELECT ... JOIN ...] is the list comprehension it
    denotes (bag semantics, the [FROM] table in the outer loop).  The four
    tables are declared outside the Python sources, so no key or uniqueness
    constraint is built into the model: statements that need one carry it
    as a hypothesis. *)

From stdpp Require Import gmap strings list fin_maps fin_sets.

Set Warnings "-clear-no-such-hyp".

Local Open Scope string_scope.
Local Open Scope list_scope.

(** ** Values *)

(** A canonical identifier (a database UUID, 128 bits). *)
Definition uuid := N.
Bind Scope N_scope with uuid.

(** A SQL [NUMERIC] / Python [Decimal]: [unscaled * 10 ^ (- scale)]. *)
Record decimal := Decimal { unscaled : Z; scale : nat }.

#[global] Instance decimal_eq_dec : EqDecision decimal.
Proof. solve_decision. Defined.

(** The Python values that reach a JSON response.  [PyFloat d] is the
    binary float [float(d)]; [PyDecimal d] is the decimal itself. *)
Inductive pyvalue :=
| PyStr (s : string)
| PyUuid (u : uuid)
| PyDecimal (d : decimal)
| PyFloat (d : decimal).

#[global] Instance pyvalue_eq_dec : EqDecision pyvalue.
Proof. solve_decision. Defined.

(** ** Tables *)

Record ProductTemplate := mkTemplate {
  template_id : uuid;
  pt_str_id : string;
  pt_name : string;
  base_price : decimal }.

Record OptionCategory := mkCategory {
  category_id : uuid;
  cat_template_id : uuid;
  cat_str_id : string;
  cat_name : string }.

Record OptionChoice := mkChoice {
  choice_id : uuid;
  oc_category_id : uuid;
  oc_str_id : string;
  oc_name : string;
  price_delta : decimal }.

Record CompatibilityRule := mkRule {
  rule_id : uuid;
  rule_type : string;
  primary_choice_id : uuid;
  secondary_choice_id : uuid }.

Record database := mkDatabase {
  ProductTemplates : list ProductTemplate;
  OptionCategories : list OptionCategory;
  OptionChoices : list OptionChoice;
  CompatibilityRules : list CompatibilityRule }.

#[global] Instance OptionChoice_eq_dec : EqDecision OptionChoice.
Proof. solve_decision. Defined.

#[global] Instance CompatibilityRule_eq_dec : EqDecision CompatibilityRule.
Proof. solve_decision. Defined.

(** ** The connection: [db.py] *)

(** What [data_layer.py] sends through [execute_query]. *)
Inductive statement :=
| SelectChoicesForRule (template_str_id primary_str_id secondary_str_id : string)
| InsertCompatibilityRule (rule_type : string) (primary_id secondary_id : uuid)
| SelectTargetChoices (template_str_id category_str_id : string)
| SelectSelectedChoiceUuids (selection_pairs : list (string * string))
| SelectIncompatibleUuids (selected_uuids : list uuid)
| SelectRequiredChoices (selected_uuids : list uuid).

(** What the connection sees: psycopg2 opens a transaction at the first
    [Execute] after a [Commit] or [Rollback]. *)
Inductive event :=
| Execute (q : statement)
| Commit
| Rollback.

Record connection := mkConnection {
  store : database;
  log : list event }.

Definition connect (db : database) : connection :=
  {| store := db; log := [] |}.

Inductive exn :=
| Psycopg2Error
| KeyError.

Inductive outcome (A : Type) :=
| Returns (a : A)
| Raises (e : exn).
Arguments Returns {A} a.
Arguments Raises {A} e.

(** A computation on the request's connection that returns or raises. *)
Definition M (A : Type) : Type := connection → outcome A * connection.

#[global] Instance M_ret : MRet M := λ A a conn, (Returns a, conn).

#[global] Instance M_bind : MBind M := λ A B k m conn,
  match m conn with
  | (Returns a, conn') => k a conn'
  | (Raises e, conn') => (Raises e, conn')
  end.

Definition raise {A} (e : exn) : M A := λ conn, (Raises e, conn).

(** [try: m except psycopg2.Error: h] *)
Definition except_psycopg2 {A} (m : M A) (h : M A) : M A :=
  λ conn,
    match m conn with
    | (Raises Psycopg2Error, conn') => h conn'
    | r => r
    end.

(** [execute_query]: [sem] is what the statement computes on the store,
    [None] when the database refuses it with a [psycopg2.Error].  The
    statement is committed before its rows are returned, and rolled back
    before the error is raised again. *)
Definition execute_query {A} (q : statement)
    (sem : database → option (A * database)) : M A :=
  λ conn,
    match sem (store conn) with
    | Some (result, db') =>
        (Returns result,
         {| store := db'; log := log conn ++ [Execute q; Commit] |})
    | None =>
        (Raises Psycopg2Error,
         {| store := store conn; log := log conn ++ [Execute q; Rollback] |})
    end.

(** A [SELECT]: reads the store and leaves it as it is.  A read is taken to
    succeed; a lost connection is not modelled. *)
Definition select {A} (rows : database → A) : database → option (A * database) :=
  λ db, Some (rows db, db).

(** ** The queries: [data_layer.py] *)

(** [SELECT oc.choice_id, oc.str_id FROM OptionChoice oc JOIN OptionCategory
    cat ... JOIN ProductTemplate pt ... WHERE pt.str_id = %s AND oc.str_id
    IN (%s, %s)] *)
Definition choices_for_rule (template_str_id primary_str_id secondary_str_id : string)
    (db : database) : list (uuid * string) :=
  oc ← OptionChoices db;
  cat ← filter (λ cat, oc_category_id oc = category_id cat) (OptionCategories db);
  pt ← filter (λ pt, cat_template_id cat = template_id pt) (ProductTemplates db);
  if bool_decide (pt_str_id pt = template_str_id
                  ∧ (oc_str_id oc = primary_str_id ∨ oc_str_id oc = secondary_str_id))
  then [(choice_id oc, oc_str_id oc)] else [].

Definition find_choices_for_rule (template_str_id primary_str_id secondary_str_id : string)
    : M (list (uuid * string)) :=
  execute_query
    (SelectChoicesForRule template_str_id primary_str_id secondary_str_id)
    (select (choices_for_rule template_str_id primary_str_id secondary_str_id)).

(** [SELECT oc.choice_id, oc.str_id, oc.name, oc.price_delta, oc.category_id
    FROM OptionChoice oc JOIN OptionCategory ocat ... JOIN ProductTemplate pt
    ... WHERE pt.str_id = %s AND ocat.str_id = %s] *)
Definition target_choices_of (template_str_id category_str_id : string)
    (db : database) : list OptionChoice :=
  oc ← OptionChoices db;
  ocat ← filter (λ ocat, oc_category_id oc = category_id ocat) (OptionCategories db);
  pt ← filter (λ pt, cat_template_id ocat = template_id pt) (ProductTemplates db);
  if bool_decide (pt_str_id pt = template_str_id ∧ cat_str_id ocat = category_str_id)
  then [oc] else [].

Definition find_target_choices (template_str_id category_str_id : string)
    : M (list OptionChoice) :=
  execute_query (SelectTargetChoices template_str_id category_str_id)
    (select (target_choices_of template_str_id category_str_id)).

(** [SELECT oc.choice_id FROM OptionChoice oc JOIN OptionCategory ocat ...
    WHERE (ocat.str_id, oc.str_id) IN %s]: no template in the condition.
    These are the rows of the statement for a tuple of pairs that is not
    empty. *)
Definition selected_choice_uuids_of (selection_pairs : list (string * string))
    (db : database) : list uuid :=
  oc ← OptionChoices db;
  ocat ← filter (λ ocat, oc_category_id oc = category_id ocat) (OptionCategories db);
  if bool_decide ((cat_str_id ocat, oc_str_id oc) ∈ selection_pairs)
  then [choice_id oc] else [].

(** [tuple(selection_pairs)] is the one parameter.  For the empty tuple the
    statement reads [IN ()], which the database refuses as a syntax error:
    a [psycopg2.Error]. *)
Definition find_selected_choice_uuids (selection_pairs : list (string * string))
    : M (list uuid) :=
  execute_query (SelectSelectedChoiceUuids selection_pairs)
    (λ db,
       match selection_pairs with
       | [] => None
       | _ :: _ => select (selected_choice_uuids_of selection_pairs) db
       end).

(** The two branches of the [UNION], then the Python set of the rows. *)
Definition incompatible_rows (selected_uuids : list uuid) (db : database) : list uuid :=
  remove_dups
    ((primary_choice_id <$>
        filter (λ cr, rule_type cr = "INCOMPATIBLE_WITH"
                      ∧ secondary_choice_id cr ∈ selected_uuids)
               (CompatibilityRules db))
     ++ (secondary_choice_id <$>
           filter (λ cr, rule_type cr = "INCOMPATIBLE_WITH"
                         ∧ primary_choice_id cr ∈ selected_uuids)
                  (CompatibilityRules db))).

Definition find_incompatible_uuids (selected_uuids : list uuid) : M (gset uuid) :=
  results ← execute_query (SelectIncompatibleUuids selected_uuids)
              (select (incompatible_rows selected_uuids));
  mret (list_to_set results).

(** [SELECT cr.secondary_choice_id, oc.category_id FROM CompatibilityRule cr
    JOIN OptionChoice oc ON cr.secondary_choice_id = oc.choice_id WHERE
    cr.rule_type = 'REQUIRES' AND cr.primary_choice_id = ANY(%s)] *)
Definition required_choices_of (selected_uuids : list uuid) (db : database)
    : list (uuid * uuid) :=
  cr ← CompatibilityRules db;
  oc ← filter (λ oc, secondary_choice_id cr = choice_id oc) (OptionChoices db);
  if bool_decide (rule_type cr = "REQUIRES" ∧ primary_choice_id cr ∈ selected_uuids)
  then [(secondary_choice_id cr, oc_category_id oc)] else [].

Definition find_required_choices (selected_uuids : list uuid) : M (list (uuid * uuid)) :=
  execute_query (SelectRequiredChoices selected_uuids)
    (select (required_choices_of selected_uuids)).

(** ** The responses of [main.py] *)

(** A JSON object of the response: a Python dict with string keys. *)
Abbreviation entry := (gmap string pyvalue).

Inductive payload :=
| JsonList (entries : list entry)
| JsonError (error : string)
| JsonDatabaseError
| JsonRuleAdded (rule_id : uuid).

(** [return jsonify(...), status] *)
Record response := Response { body : payload; status : nat }.

Definition jsonify (entries : list entry) : response := Response (JsonList entries) 200.

(** [dict(row)] for a row of [find_target_choices]: every selected column. *)
Definition dict_of_row (row : OptionChoice) : entry :=
  {[ "choice_id" := PyUuid (choice_id row);
     "str_id" := PyStr (oc_str_id row);
     "name" := PyStr (oc_name row);
     "price_delta" := PyDecimal (price_delta row);
     "category_id" := PyUuid (oc_category_id row) ]}.

(** The dict appended by the filtering loop. *)
Definition option_entry (choice : OptionChoice) : entry :=
  {[ "str_id" := PyStr (oc_str_id choice);
     "name" := PyStr (oc_name choice);
     "price_delta" := PyFloat (price_delta choice) ]}.

(** ** Rule admission: [create_compatibility_rule] *)

Section Admission.

(** The [CompatibilityRule] table is declared outside the sources: whether
    it accepts a row (its constraints), and the [rule_id] it gives it. *)
Variable rule_accepted : database → string → uuid → uuid → bool.
Variable new_rule_id : database → uuid.

Definition insert_rule (rule_type : string) (primary_id secondary_id : uuid)
    (db : database) : option (uuid * database) :=
  if rule_accepted db rule_type primary_id secondary_id then
    let id := new_rule_id db in
    Some (id,
          {| ProductTemplates := ProductTemplates db;
             OptionCategories := OptionCategories db;
             OptionChoices := OptionChoices db;
             CompatibilityRules :=
               CompatibilityRules db
               ++ [mkRule id rule_type primary_id secondary_id] |})
  else None.

Definition insert_compatibility_rule (rule_type : string)
    (primary_id secondary_id : uuid) : M uuid :=
  execute_query (InsertCompatibilityRule rule_type primary_id secondary_id)
    (insert_rule rule_type primary_id secondary_id).

(** [{choice['str_id']: choice['choice_id'] for choice in choices}]: a later
    row replaces an earlier one with the same key. *)
Definition choice_map_of (choices : list (uuid * string)) : gmap string uuid :=
  foldl (λ m choice, <[choice.2 := choice.1]> m) ∅ choices.

(** [choice_map[key]] *)
Definition getitem (choice_map : gmap string uuid) (key : string) : M uuid :=
  match choice_map !! key with
  | Some v => mret v
  | None => raise KeyError
  end.

Definition create_compatibility_rule (template_str_id : string)
    (data : option (gmap string string)) : M response :=
  match data with
  | None => mret (Response (JsonError "Request must include rule_type, primary_choice_str_id, secondary_choice_str_id") 400)
  | Some data =>
    match data !! "rule_type", data !! "primary_choice_str_id",
          data !! "secondary_choice_str_id" with
    | Some rule_type, Some primary_choice_str_id, Some secondary_choice_str_id =>
      if bool_decide (rule_type ≠ "REQUIRES" ∧ rule_type ≠ "INCOMPATIBLE_WITH") then
        mret (Response (JsonError "rule_type must be 'REQUIRES' or 'INCOMPATIBLE_WITH'") 400)
      else if bool_decide (primary_choice_str_id = secondary_choice_str_id) then
        mret (Response (JsonError "A choice cannot have a compatibility rule with itself.") 400)
      else
        except_psycopg2
          (choices ← find_choices_for_rule template_str_id
                       primary_choice_str_id secondary_choice_str_id;
           if bool_decide (length choices ≠ 2) then
             mret (Response (JsonError "One or both choice IDs are invalid or do not belong to this product template.") 404)
           else
             let choice_map := choice_map_of choices in
             primary_choice_id ← getitem choice_map primary_choice_str_id;
             secondary_choice_id ← getitem choice_map secondary_choice_str_id;
             new_rule ← insert_compatibility_rule rule_type
                          primary_choice_id secondary_choice_id;
             mret (Response (JsonRuleAdded new_rule) 201))
          (mret (Response JsonDatabaseError 409))
    | _, _, _ =>
      mret (Response (JsonError "Request must include rule_type, primary_choice_str_id, secondary_choice_str_id") 400)
    end
  end.

End Admission.

(** ** Availability: [get_available_options] *)

(** The two [continue] tests of the loop: [choice] is appended when neither
    fires. *)
Definition survives (incompatible_uuids required_in_target_category : gset uuid)
    (choice : OptionChoice) : bool :=
  if bool_decide (choice_id choice ∈ incompatible_uuids) then false
  else if bool_decide (required_in_target_category ≠ ∅
                       ∧ choice_id choice ∉ required_in_target_category) then false
  else true.

(** [for choice in target_choices: ... available_options.append({...})] *)
Definition available_options_of (incompatible_uuids required_in_target_category : gset uuid)
    (target_choices : list OptionChoice) : list entry :=
  foldl (λ available_options choice,
           if survives incompatible_uuids required_in_target_category choice
           then available_options ++ [option_entry choice]
           else available_options)
        [] target_choices.

(** [{row['secondary_choice_id'] for row in required_results
      if row['category_id'] == target_category_id}] *)
Definition required_in_category (required_results : list (uuid * uuid))
    (target_category_id : uuid) : gset uuid :=
  list_to_set (fst <$> filter (λ row, row.2 = target_category_id) required_results).

Definition get_available_options (template_str_id target_category_str_id : string)
    (data : option (gmap string (gmap string string))) : M response :=
  let data := default ∅ data in
  let current_selections := default ∅ (data !! "current_selections") in
  except_psycopg2
    (target_choices ← find_target_choices template_str_id target_category_str_id;
     match target_choices with
     | [] => mret (jsonify [])
     | first_choice :: _ =>
       if bool_decide (current_selections = ∅) then
         mret (jsonify (dict_of_row <$> target_choices))
       else
         let selection_pairs := map_to_list current_selections in
         selected_uuids ← find_selected_choice_uuids selection_pairs;
         if bool_decide (selected_uuids = []) then
           mret (jsonify (dict_of_row <$> target_choices))
         else
           incompatible_uuids ← find_incompatible_uuids selected_uuids;
           required_results ← find_required_choices selected_uuids;
           let target_category_id := oc_category_id first_choice in
           let required_in_target_category :=
             required_in_category required_results target_category_id in
           mret (jsonify (available_options_of incompatible_uuids
                            required_in_target_category target_choices))
     end)
    (mret (Response JsonDatabaseError 500)).

(** ** The values one evaluation computes, as functions of the store *)

(** [current_selections], after the two defaults. *)
Definition current_selections_of (data : option (gmap string (gmap string string)))
    : gmap string string :=
  default ∅ (default ∅ data !! "current_selections").

(** [selected_uuids] *)
Definition selected_uuids_of (db : database)
    (data : option (gmap string (gmap string string))) : list uuid :=
  selected_choice_uuids_of (map_to_list (current_selections_of data)) db.

(** [incompatible_uuids] *)
Definition incompatible_uuids_of (db : database) (selected_uuids : list uuid) : gset uuid :=
  list_to_set (incompatible_rows selected_uuids db).

(** [required_in_target_category], the target category being that of
    [target_choices[0]]. *)
Definition required_in_target_category_of (db : database) (selected_uuids : list uuid)
    (target_choices : list OptionChoice) : gset uuid :=
  match target_choices with
  | [] => ∅
  | first_choice :: _ =>
      required_in_category (required_choices_of selected_uuids db)
        (oc_category_id first_choice)
  end.

(** The rows of the target category whose dict the loop appends. *)
Definition surviving_choices (db : database) (template_str_id target_category_str_id : string)
    (data : option (gmap string (gmap string string))) : list OptionChoice :=
  let target_choices := target_choices_of template_str_id target_category_str_id db in
  let selected_uuids := selected_uuids_of db data in
  filter (λ choice,
            survives (incompatible_uuids_of db selected_uuids)
              (required_in_target_category_of db selected_uuids target_choices)
              choice = true)
         target_choices.

(** ** Vocabulary of the statements *)

(** The pair [(category_str_id, choice_str_id)] of a selection names a
    stored choice, in whatever template. *)
Definition resolves (db : database) (category_str_id choice_str_id : string) : Prop :=
  ∃ oc ocat, oc ∈ OptionChoices db ∧ ocat ∈ OptionCategories db
    ∧ oc_category_id oc = category_id ocat
    ∧ cat_str_id ocat = category_str_id ∧ oc_str_id oc = choice_str_id.

(** No template is called [t]. *)
Definition template_absent (db : database) (t : string) : Prop :=
  ∀ pt, pt ∈ ProductTemplates db → pt_str_id pt ≠ t.

(** No category of a template called [t] is called [c]. *)
Definition category_absent (db : database) (t c : string) : Prop :=
  ∀ ocat pt, ocat ∈ OptionCategories db → pt ∈ ProductTemplates db →
    cat_template_id ocat = template_id pt → pt_str_id pt = t →
    cat_str_id ocat ≠ c.

(** The categories called [c] of the templates called [t] own no choice. *)
Definition category_without_choices (db : database) (t c : string) : Prop :=
  ∀ ocat pt oc, ocat ∈ OptionCategories db → pt ∈ ProductTemplates db →
    oc ∈ OptionChoices db →
    cat_template_id ocat = template_id pt → pt_str_id pt = t →
    cat_str_id ocat = c →
    oc_category_id oc ≠ category_id ocat.

(** The shape of an entry: its fields are [str_id], [name] and
    [price_delta], and the price is a decimal. *)
Definition option_fields : gset string := {[ "str_id"; "name"; "price_delta" ]}.

Definition decimal_entry (e : entry) : Prop :=
  dom e = option_fields ∧ ∃ d, e !! "price_delta" = Some (PyDecimal d).

(** The shape the filtering loop builds: the same fields, the price a
    binary float. *)
Definition float_entry (e : entry) : Prop :=
  dom e = option_fields ∧ ∃ d, e !! "price_delta" = Some (PyFloat d).

(** The choice string identifier [s] names a choice of a template called
    [t]. *)
Definition resolves_in_template (db : database) (t s : string) : Prop :=
  ∃ oc cat pt, oc ∈ OptionChoices db ∧ cat ∈ OptionCategories db
    ∧ pt ∈ ProductTemplates db
    ∧ oc_category_id oc = category_id cat
    ∧ cat_template_id cat = template_id pt
    ∧ pt_str_id pt = t ∧ oc_str_id oc = s.

(** The [(choice_id, str_id)] rows of all the choices of the templates
    called [t]: the lookup of [find_choices_for_rule] without its [IN]
    condition. *)
Definition template_choices (t : string) (db : database) : list (uuid * string) :=
  oc ← OptionChoices db;
  cat ← filter (λ cat, oc_category_id oc = category_id cat) (OptionCategories db);
  pt ← filter (λ pt, cat_template_id cat = template_id pt) (ProductTemplates db);
  if bool_decide (pt_str_id pt = t) then [(choice_id oc, oc_str_id oc)] else [].

(** The transactions of a log, in order: the statements executed up to each
    [Commit] or [Rollback], and those of a transaction still open at the
    end. *)
Fixpoint transactions_from (current : list statement) (log : list event)
    : list (list statement) :=
  match log with
  | [] => match current with [] => [] | _ => [current] end
  | Execute q :: log => transactions_from (current ++ [q]) log
  | Commit :: log | Rollback :: log => current :: transactions_from [] log
  end.

Definition transactions (log : list event) : list (list statement) :=
  transactions_from [] log.

(** Two statements of a log ran in one transaction. *)
Definition in_one_transaction (log : list event) (q1 q2 : statement) : Prop :=
  ∃ tx, tx ∈ transactions log ∧ q1 ∈ tx ∧ q2 ∈ tx.

(** The log of statements that each ran alone and were ended at once, by a
    [Commit] ([true]) or a [Rollback] ([false]). *)
Definition autocommit_log (steps : list (statement * bool)) : list event :=
  steps ≫= λ step : statement * bool,
    [Execute step.1; if step.2 then Commit else Rollback].

Definition autocommitted (conn : connection) : Prop :=
  ∃ steps, log conn = autocommit_log steps.

(** A computation that keeps the log in that form. *)
Definition preserves_autocommit {A} (m : M A) : Prop :=
  ∀ conn, autocommitted conn → autocommitted (m conn).2.

(** The log after the statements [qs], each committed on its own. *)
Definition committed (conn : connection) (qs : list statement) : connection :=
  {| store := store conn;
     log := log conn ++ (qs ≫= λ q, [Execute q; Commit]) |}.

(** ** The catalogue endpoints and the rule lookup

    [create_product_template], [create_option_category],
    [create_option_choice] and [get_compatibility_rule] of [main.py], with
    the queries of [data_layer.py] they call.  Each request runs on a
    connection of its own, through the same [execute_query]; the statements
    these endpoints send are logged in a type of their own. *)

Module Catalog.

Inductive statement :=
| InsertProductTemplate (str_id name base_price : pyvalue)
| SelectTemplateId (template_str_id : string)
| InsertOptionCategory (template_id : uuid) (str_id name : pyvalue)
| SelectCategoryId (category_str_id : string)
| InsertOptionChoice (category_id : uuid) (str_id name price_delta : pyvalue)
| SelectCompatibilityRule (rule_id : uuid).

Inductive event :=
| Execute (q : statement)
| Commit
| Rollback.

Record connection := mkConnection {
  store : database;
  log : list event }.

Definition connect (db : database) : connection :=
  {| store := db; log := [] |}.

Definition M (A : Type) : Type := connection → outcome A * connection.

#[global] Instance M_ret : MRet M := λ A a conn, (Returns a, conn).

#[global] Instance M_bind : MBind M := λ A B k m conn,
  match m conn with
  | (Returns a, conn') => k a conn'
  | (Raises e, conn') => (Raises e, conn')
  end.

(** [try: m except psycopg2.Error: h] *)
Definition except_psycopg2 {A} (m : M A) (h : M A) : M A :=
  λ conn,
    match m conn with
    | (Raises Psycopg2Error, conn') => h conn'
    | r => r
    end.

(** [execute_query] of [db.py]: commit before the result is returned,
    rollback before the error is raised again. *)
Definition execute_query {A} (q : statement)
    (sem : database → option (A * database)) : M A :=
  λ conn,
    match sem (store conn) with
    | Some (result, db') =>
        (Returns result,
         {| store := db'; log := log conn ++ [Execute q; Commit] |})
    | None =>
        (Raises Psycopg2Error,
         {| store := store conn; log := log conn ++ [Execute q; Rollback] |})
    end.

Definition select {A} (rows : database → A) : database → option (A * database) :=
  λ db, Some (rows db, db).

(** The JSON object of a reply, its error message, or the database error
    object.  [PyUuid u] in an object is the text of [u]. *)
Inductive reply_body :=
| ReplyObject (fields : entry)
| ReplyError (error : string)
| ReplyDatabaseError.

Record reply := Reply { body_of : reply_body; status_of : nat }.

(** The three tables filled here are declared outside the sources.  A
    schema says what a text and a numeric column store for a Python value,
    whether a table accepts a row, and the identifier it gives it. *)
Record schema := Schema {
  as_text : pyvalue → string;
  as_numeric : pyvalue → decimal;
  template_accepted : database → pyvalue → pyvalue → pyvalue → bool;
  new_template_id : database → uuid;
  category_accepted : database → uuid → pyvalue → pyvalue → bool;
  new_category_id : database → uuid;
  choice_accepted : database → uuid → pyvalue → pyvalue → pyvalue → bool;
  new_choice_id : database → uuid }.

Definition add_template (db : database) (pt : ProductTemplate) : database :=
  mkDatabase (ProductTemplates db ++ [pt]) (OptionCategories db) (OptionChoices db)
    (CompatibilityRules db).

Definition add_category (db : database) (cat : OptionCategory) : database :=
  mkDatabase (ProductTemplates db) (OptionCategories db ++ [cat]) (OptionChoices db)
    (CompatibilityRules db).

Definition add_choice (db : database) (oc : OptionChoice) : database :=
  mkDatabase (ProductTemplates db) (OptionCategories db) (OptionChoices db ++ [oc])
    (CompatibilityRules db).

Section Endpoints.

Variable sch : schema.

(** The row of [INSERT INTO ProductTemplate (str_id, name, base_price)]. *)
Definition template_row (db : database) (str_id name base_price : pyvalue)
    : ProductTemplate :=
  mkTemplate (new_template_id sch db) (as_text sch str_id) (as_text sch name)
    (as_numeric sch base_price).

(** [... RETURNING template_id, str_id] *)
Definition insert_product_template (str_id name base_price : pyvalue)
    : M (uuid * string) :=
  execute_query (InsertProductTemplate str_id name base_price)
    (λ db,
       if template_accepted sch db str_id name base_price then
         let row := template_row db str_id name base_price in
         Some ((template_id row, pt_str_id row), add_template db row)
       else None).

(** [SELECT template_id FROM ProductTemplate WHERE str_id = %s], one row. *)
Definition find_template_id_by_str_id (template_str_id : string) : M (option uuid) :=
  execute_query (SelectTemplateId template_str_id)
    (select (λ db,
       head (template_id <$>
               filter (λ pt, pt_str_id pt = template_str_id) (ProductTemplates db)))).

Definition category_row (db : database) (template_id : uuid) (str_id name : pyvalue)
    : OptionCategory :=
  mkCategory (new_category_id sch db) template_id (as_text sch str_id)
    (as_text sch name).

Definition insert_option_category (template_id : uuid) (str_id name : pyvalue)
    : M (uuid * string) :=
  execute_query (InsertOptionCategory template_id str_id name)
    (λ db,
       if category_accepted sch db template_id str_id name then
         let row := category_row db template_id str_id name in
         Some ((category_id row, cat_str_id row), add_category db row)
       else None).

(** [SELECT category_id FROM OptionCategory WHERE str_id = %s], one row:
    no template in the condition. *)
Definition find_category_id_by_str_id (category_str_id : string) : M (option uuid) :=
  execute_query (SelectCategoryId category_str_id)
    (select (λ db,
       head (category_id <$>
               filter (λ cat, cat_str_id cat = category_str_id) (OptionCategories db)))).

Definition choice_row (db : database) (category_id : uuid)
    (str_id name price_delta : pyvalue) : OptionChoice :=
  mkChoice (new_choice_id sch db) category_id (as_text sch str_id) (as_text sch name)
    (as_numeric sch price_delta).

Definition insert_option_choice (category_id : uuid) (str_id name price_delta : pyvalue)
    : M (uuid * string) :=
  execute_query (InsertOptionChoice category_id str_id name price_delta)
    (λ db,
       if choice_accepted sch db category_id str_id name price_delta then
         let row := choice_row db category_id str_id name price_delta in
         Some ((choice_id row, oc_str_id row), add_choice db row)
       else None).

Definition create_product_template (data : option (gmap string pyvalue)) : M reply :=
  let bad_request :=
    Reply (ReplyError "Request must include 'template_str_id', 'name', and 'base_price'") 400 in
  match data with
  | None => mret bad_request
  | Some data =>
    match data !! "template_str_id", data !! "name", data !! "base_price" with
    | Some template_str_id, Some name, Some base_price =>
      except_psycopg2
        (new_template ← insert_product_template template_str_id name base_price;
         mret (Reply (ReplyObject {[ "template_id" := PyUuid new_template.1;
                                     "template_str_id" := PyStr new_template.2 ]}) 201))
        (mret (Reply ReplyDatabaseError 409))
    | _, _, _ => mret bad_request
    end
  end.

Definition create_option_category (template_str_id : string)
    (data : option (gmap string pyvalue)) : M reply :=
  let bad_request :=
    Reply (ReplyError "Request must include 'category_str_id' and 'name'") 400 in
  match data with
  | None => mret bad_request
  | Some data =>
    match data !! "category_str_id", data !! "name" with
    | Some category_str_id, Some name =>
      except_psycopg2
        (template ← find_template_id_by_str_id template_str_id;
         match template with
         | None =>
           mret (Reply (ReplyError ("Product template with id '" +:+ template_str_id
                                    +:+ "' not found.")) 404)
         | Some template_id =>
           new_category ← insert_option_category template_id category_str_id name;
           mret (Reply (ReplyObject {[ "category_id" := PyUuid new_category.1;
                                       "category_str_id" := PyStr new_category.2 ]}) 201)
         end)
        (mret (Reply ReplyDatabaseError 409))
    | _, _ => mret bad_request
    end
  end.

Definition create_option_choice (category_str_id : string)
    (data : option (gmap string pyvalue)) : M reply :=
  let bad_request :=
    Reply (ReplyError "Request must include 'choice_str_id', 'name', and 'price_delta'") 400 in
  match data with
  | None => mret bad_request
  | Some data =>
    match data !! "choice_str_id", data !! "name", data !! "price_delta" with
    | Some choice_str_id, Some name, Some price_delta =>
      except_psycopg2
        (category ← find_category_id_by_str_id category_str_id;
         match category with
         | None =>
           mret (Reply (ReplyError ("Option category with id '" +:+ category_str_id
                                    +:+ "' not found.")) 404)
         | Some category_id =>
           new_choice ← insert_option_choice category_id choice_str_id name price_delta;
           mret (Reply (ReplyObject {[ "choice_id" := PyUuid new_choice.1;
                                       "choice_str_id" := PyStr new_choice.2 ]}) 201)
         end)
        (mret (Reply ReplyDatabaseError 409))
    | _, _, _ => mret bad_request
    end
  end.

End Endpoints.

(** A row of [find_compatibility_rule_by_id]. *)
Record rule_row := RuleRow {
  rr_rule_id : uuid;
  rr_rule_type : string;
  rr_primary_choice_str_id : string;
  rr_secondary_choice_str_id : string }.

(** [SELECT cr.rule_id, cr.rule_type, pc.str_id, sc.str_id FROM
    CompatibilityRule cr JOIN OptionChoice pc ON cr.primary_choice_id =
    pc.choice_id JOIN OptionChoice sc ON cr.secondary_choice_id =
    sc.choice_id WHERE cr.rule_id = %s] *)
Definition compatibility_rule_rows (rule_id_ : uuid) (db : database) : list rule_row :=
  cr ← CompatibilityRules db;
  pc ← filter (λ pc, primary_choice_id cr = choice_id pc) (OptionChoices db);
  sc ← filter (λ sc, secondary_choice_id cr = choice_id sc) (OptionChoices db);
  if bool_decide (rule_id cr = rule_id_)
  then [RuleRow (rule_id cr) (rule_type cr) (oc_str_id pc) (oc_str_id sc)] else [].

Definition find_compatibility_rule_by_id (rule_id : uuid) : M (option rule_row) :=
  execute_query (SelectCompatibilityRule rule_id)
    (select (λ db, head (compatibility_rule_rows rule_id db))).

(** [dict(rule)] *)
Definition dict_of_rule (rule : rule_row) : entry :=
  {[ "rule_id" := PyUuid (rr_rule_id rule);
     "rule_type" := PyStr (rr_rule_type rule);
     "primary_choice_str_id" := PyStr (rr_primary_choice_str_id rule);
     "secondary_choice_str_id" := PyStr (rr_secondary_choice_str_id rule) ]}.

Definition get_compatibility_rule (rule_id : uuid) : M reply :=
  except_psycopg2
    (rule ← find_compatibility_rule_by_id rule_id;
     match rule with
     | None => mret (Reply (ReplyError "Compatibility rule not found.") 404)
     | Some rule => mret (Reply (ReplyObject (dict_of_rule rule)) 200)
     end)
    (mret (Reply ReplyDatabaseError 500)).

End Catalog.

(** ** Vocabulary of the further properties *)

#[global] Instance ProductTemplate_eq_dec : EqDecision ProductTemplate.
Proof. solve_decision. Defined.

#[global] Instance OptionCategory_eq_dec : EqDecision OptionCategory.
Proof. solve_decision. Defined.

(** The store with one more rule, at the end of its table. *)
Definition add_rule (db : database) (cr : CompatibilityRule) : database :=
  mkDatabase (ProductTemplates db) (OptionCategories db) (OptionChoices db)
    (CompatibilityRules db ++ [cr]).

(** The choice identifier [u] is that of a choice in a category of the
    template identified by [tid]. *)
Definition choice_in_template (db : database) (u tid : uuid) : Prop :=
  ∃ oc cat, oc ∈ OptionChoices db ∧ cat ∈ OptionCategories db
    ∧ choice_id oc = u
    ∧ oc_category_id oc = category_id cat
    ∧ cat_template_id cat = tid.

(** Every rule links two choices of one template. *)
Definition rules_within_templates (db : database) : Prop :=
  ∀ cr, cr ∈ CompatibilityRules db →
    ∃ tid, choice_in_template db (primary_choice_id cr) tid
           ∧ choice_in_template db (secondary_choice_id cr) tid.

(** A choice identifier belongs to one template at most. *)
Definition choice_template_unique (db : database) : Prop :=
  ∀ u tid tid', choice_in_template db u tid → choice_in_template db u tid' → tid = tid'.

(** Templates with the same string identifier are the same template. *)
Definition template_str_ids_unique (db : database) : Prop :=
  ∀ pt pt', pt ∈ ProductTemplates db → pt' ∈ ProductTemplates db →
    pt_str_id pt = pt_str_id pt' → template_id pt = template_id pt'.

(** The request body lacks one of the fields the endpoint asks for. *)
Definition lacks (data : option (gmap string pyvalue)) (fields : list string) : Prop :=
  match data with
  | None => True
  | Some d => ∃ field, field ∈ fields ∧ d !! field = None
  end.

(** The target rows of [t] and [c] that the loop keeps when the selected
    identifiers are [selected_uuids]. *)
Definition survivors (db : database) (t c : string) (selected_uuids : list uuid)
    : list OptionChoice :=
  let target_choices := target_choices_of t c db in
  filter (λ choice,
            survives (incompatible_uuids_of db selected_uuids)
              (required_in_target_category_of db selected_uuids target_choices)
              choice = true)
         target_choices.

(** The selected choice [u] is in no template called [t]. *)
Definition foreign_to (db : database) (t : string) (u : uuid) : Prop :=
  ∀ pt, pt ∈ ProductTemplates db → pt_str_id pt = t →
    ¬ choice_in_template db u (template_id pt).

(** ** Stores and requests to run the endpoints on

    Template [T1] with [COLOR = {red, blue}] and [SIZE = {S, L}], as in the
    example scenarios; the rules are added per scenario. *)

Definition d0 : decimal := Decimal 0 2.

Definition T1_templates : list ProductTemplate := [mkTemplate 1 "T1" "Shirt" (Decimal 1999 2)].
Definition T1_categories : list OptionCategory :=
  [mkCategory 10 1 "COLOR" "Color"; mkCategory 11 1 "SIZE" "Size"].
Definition T1_choices : list OptionChoice :=
  [mkChoice 100 10 "red" "Red" d0; mkChoice 101 10 "blue" "Blue" (Decimal 150 2);
   mkChoice 110 11 "S" "Small" d0; mkChoice 111 11 "L" "Large" (Decimal 250 2)].

Definition T1_with (rules : list CompatibilityRule) : database :=
  mkDatabase T1_templates T1_categories T1_choices rules.

(** Two templates: [T1] with [SIZE = {S, L}] and [TRIM = {basic, sport}],
    [T2] with [COLOR = {red}]; both rules start at [red] of [T2]. *)
Definition two_templates : database :=
  mkDatabase
    [mkTemplate 1 "T1" "Shirt" (Decimal 1999 2); mkTemplate 2 "T2" "Mug" (Decimal 899 2)]
    [mkCategory 11 1 "SIZE" "Size"; mkCategory 12 1 "TRIM" "Trim";
     mkCategory 20 2 "COLOR" "Color"]
    [mkChoice 110 11 "S" "Small" d0; mkChoice 111 11 "L" "Large" (Decimal 250 2);
     mkChoice 120 12 "basic" "Basic" d0; mkChoice 121 12 "sport" "Sport" (Decimal 500 2);
     mkChoice 200 20 "red" "Red" d0]
    [mkRule 1000 "INCOMPATIBLE_WITH" 200 111; mkRule 1001 "REQUIRES" 200 121].

(** One template with three categories.  [red] requires [L], [wool]
    requires [M], and [L] is stored as incompatible with [wool]. *)
Definition wardrobe : database :=
  mkDatabase
    [mkTemplate 1 "T1" "Coat" (Decimal 9900 2)]
    [mkCategory 10 1 "COLOR" "Color"; mkCategory 11 1 "SIZE" "Size";
     mkCategory 13 1 "FABRIC" "Fabric"]
    [mkChoice 100 10 "red" "Red" d0; mkChoice 101 10 "blue" "Blue" (Decimal 150 2);
     mkChoice 110 11 "S" "Small" d0; mkChoice 112 11 "M" "Medium" d0;
     mkChoice 111 11 "L" "Large" (Decimal 250 2);
     mkChoice 130 13 "cotton" "Cotton" d0; mkChoice 131 13 "wool" "Wool" (Decimal 4000 2)]
    [mkRule 1000 "REQUIRES" 100 111; mkRule 1001 "REQUIRES" 131 112;
     mkRule 1002 "INCOMPATIBLE_WITH" 111 131].

Definition red_wool : option (gmap string (gmap string string)) :=
  Some {[ "current_selections" := {[ "COLOR" := "red"; "FABRIC" := "wool" ]} ]}.

(** Two templates whose rules stay inside each: [T1] with [SIZE = {S, L}],
    [T2] with [COLOR = {red, pink}]. *)
Definition two_shops : database :=
  mkDatabase
    [mkTemplate 1 "T1" "Shirt" (Decimal 1999 2); mkTemplate 2 "T2" "Mug" (Decimal 899 2)]
    [mkCategory 11 1 "SIZE" "Size"; mkCategory 20 2 "COLOR" "Color"]
    [mkChoice 110 11 "S" "Small" d0; mkChoice 111 11 "L" "Large" (Decimal 250 2);
     mkChoice 200 20 "red" "Red" d0; mkChoice 201 20 "pink" "Pink" d0]
    [mkRule 1000 "INCOMPATIBLE_WITH" 200 201; mkRule 1001 "REQUIRES" 110 111].

(** A schema without constraints: strings and numbers are stored as they
    are, and rows are numbered after the size of their table. *)
Definition plain_schema : Catalog.schema :=
  Catalog.Schema
    (λ v, match v with PyStr s => s | _ => "" end)
    (λ v, match v with PyDecimal d | PyFloat d => d | _ => d0 end)
    (λ _ _ _ _, true) (λ db, (1 + N.of_nat (length (ProductTemplates db)))%N)
    (λ _ _ _ _, true) (λ db, (10 + N.of_nat (length (OptionCategories db)))%N)
    (λ _ _ _ _ _, true) (λ db, (100 + N.of_nat (length (OptionChoices db)))%N).

Definition red_and_small : option (gmap string (gmap string string)) :=
  Some {[ "current_selections" := {[ "COLOR" := "red"; "SIZE" := "S" ]} ]}.

(** One template where [red] is a choice of [COLOR] and of [TRIM]: choice
    string identifiers are unique within a category only. *)
Definition two_reds : database :=
  mkDatabase
    [mkTemplate 1 "T1" "Shirt" (Decimal 1999 2)]
    [mkCategory 10 1 "COLOR" "Color"; mkCategory 11 1 "SIZE" "Size";
     mkCategory 12 1 "TRIM" "Trim"]
    [mkChoice 100 10 "red" "Red" d0; mkChoice 111 11 "L" "Large" (Decimal 250 2);
     mkChoice 120 12 "red" "Red piping" (Decimal 300 2)]
    [].

(** The body of a rule creation request. *)
Definition rule_request (rule_type primary_choice_str_id secondary_choice_str_id : string)
    : option (gmap string string) :=
  Some {[ "rule_type" := rule_type;
          "primary_choice_str_id" := primary_choice_str_id;
          "secondary_choice_str_id" := secondary_choice_str_id ]}.

(** A rule table without constraints, numbering its rows from 1000. *)
Definition accept_all (db : database) (rule_type : string) (p s : uuid) : bool := true.
Definition count_from_1000 (db : database) : uuid :=
  (1000 + N.of_nat (length (CompatibilityRules db)))%N.

Definition selecting (category_str_id choice_str_id : string)
    : option (gmap string (gmap string string)) :=
  Some {[ "current_selections" := {[ category_str_id := choice_str_id ]} ]}.

(** * Lemmas *)

Lemma available_options_of_filter inc req target_choices :
  available_options_of inc req target_choices
  = option_entry <$> filter (λ choice, survives inc req choice = true) target_choices.
Proof.
  unfold available_options_of.
  cut (∀ acc,
         foldl (λ available_options choice,
                  if survives inc req choice
                  then available_options ++ [option_entry choice]
                  else available_options) acc target_choices
         = acc ++ (option_entry <$>
                     filter (λ choice, survives inc req choice = true) target_choices)).
  { intros H. apply (H []). }
  induction target_choices as [|choice rest IH]; intros acc; simpl.
  - by rewrite app_nil_r.
  - rewrite IH, filter_cons. destruct (survives inc req choice); simpl; [|done].
    by rewrite <- app_assoc.
Qed.

(** *** Membership in the result of each query *)

Lemma elem_of_guard {A} (P : Prop) `{Decision P} (x y : A) :
  x ∈ (if bool_decide P then [y] else []) ↔ P ∧ x = y.
Proof.
  case_bool_decide.
  - rewrite list_elem_of_singleton. naive_solver.
  - rewrite elem_of_nil. naive_solver.
Qed.

Ltac enumerate H :=
  repeat (apply elem_of_cons in H as [->|H]); [..|by apply elem_of_nil in H].

Ltac unfold_query :=
  repeat (setoid_rewrite list_elem_of_bind
          || setoid_rewrite elem_of_guard
          || setoid_rewrite list_elem_of_filter).

Lemma elem_of_target_choices_of t c db oc :
  oc ∈ target_choices_of t c db ↔
  oc ∈ OptionChoices db
  ∧ ∃ ocat pt, ocat ∈ OptionCategories db ∧ pt ∈ ProductTemplates db
      ∧ oc_category_id oc = category_id ocat
      ∧ cat_template_id ocat = template_id pt
      ∧ pt_str_id pt = t ∧ cat_str_id ocat = c.
Proof. unfold target_choices_of. unfold_query. naive_solver. Qed.

Lemma elem_of_choices_for_rule t p s db row :
  row ∈ choices_for_rule t p s db ↔
  ∃ oc cat pt, oc ∈ OptionChoices db ∧ cat ∈ OptionCategories db
      ∧ pt ∈ ProductTemplates db
      ∧ oc_category_id oc = category_id cat
      ∧ cat_template_id cat = template_id pt
      ∧ pt_str_id pt = t ∧ (oc_str_id oc = p ∨ oc_str_id oc = s)
      ∧ row = (choice_id oc, oc_str_id oc).
Proof. unfold choices_for_rule. unfold_query. naive_solver. Qed.

Lemma elem_of_selected_choice_uuids_of pairs db u :
  u ∈ selected_choice_uuids_of pairs db ↔
  ∃ oc ocat, oc ∈ OptionChoices db ∧ ocat ∈ OptionCategories db
      ∧ oc_category_id oc = category_id ocat
      ∧ (cat_str_id ocat, oc_str_id oc) ∈ pairs
      ∧ u = choice_id oc.
Proof. unfold selected_choice_uuids_of. unfold_query. naive_solver. Qed.

Lemma elem_of_incompatible_uuids_of db selected_uuids u :
  u ∈ incompatible_uuids_of db selected_uuids ↔
  ∃ cr, cr ∈ CompatibilityRules db ∧ rule_type cr = "INCOMPATIBLE_WITH"
      ∧ ((u = primary_choice_id cr ∧ secondary_choice_id cr ∈ selected_uuids)
         ∨ (u = secondary_choice_id cr ∧ primary_choice_id cr ∈ selected_uuids)).
Proof.
  unfold incompatible_uuids_of, incompatible_rows.
  rewrite elem_of_list_to_set, elem_of_remove_dups, elem_of_app,
    !list_elem_of_fmap.
  setoid_rewrite list_elem_of_filter. naive_solver.
Qed.

Lemma elem_of_required_choices_of selected_uuids db row :
  row ∈ required_choices_of selected_uuids db ↔
  ∃ cr oc, cr ∈ CompatibilityRules db ∧ oc ∈ OptionChoices db
      ∧ secondary_choice_id cr = choice_id oc
      ∧ rule_type cr = "REQUIRES"
      ∧ primary_choice_id cr ∈ selected_uuids
      ∧ row = (secondary_choice_id cr, oc_category_id oc).
Proof. unfold required_choices_of. unfold_query. naive_solver. Qed.

Lemma elem_of_required_in_category required_results target_category_id u :
  u ∈ required_in_category required_results target_category_id ↔
  (u, target_category_id) ∈ required_results.
Proof.
  unfold required_in_category.
  rewrite elem_of_list_to_set, list_elem_of_fmap.
  setoid_rewrite list_elem_of_filter.
  split.
  - intros ([u' cat] & -> & Hcat & Hin). simpl in *. by subst.
  - intros Hin. by exists (u, target_category_id).
Qed.

Lemma selected_of_no_selection db : selected_choice_uuids_of [] db = [].
Proof.
  apply elem_of_nil_inv. intros u.
  rewrite elem_of_selected_choice_uuids_of.
  intros (oc & ocat & _ & _ & _ & Hin & _). by apply elem_of_nil in Hin.
Qed.

(** *** The four ways an evaluation ends, with the statements it committed *)

Lemma get_available_options_run t c data conn :
  get_available_options t c data conn =
  let db := store conn in
  let target_choices := target_choices_of t c db in
  let selection_pairs := map_to_list (current_selections_of data) in
  let selected_uuids := selected_uuids_of db data in
  if bool_decide (target_choices = []) then
    (Returns (jsonify []), committed conn [SelectTargetChoices t c])
  else if bool_decide (current_selections_of data = ∅) then
    (Returns (jsonify (dict_of_row <$> target_choices)),
     committed conn [SelectTargetChoices t c])
  else if bool_decide (selected_uuids = []) then
    (Returns (jsonify (dict_of_row <$> target_choices)),
     committed conn [SelectTargetChoices t c;
                     SelectSelectedChoiceUuids selection_pairs])
  else
    (Returns (jsonify (option_entry <$> surviving_choices db t c data)),
     committed conn [SelectTargetChoices t c;
                     SelectSelectedChoiceUuids selection_pairs;
                     SelectIncompatibleUuids selected_uuids;
                     SelectRequiredChoices selected_uuids]).
Proof.
  destruct conn as [db lg].
  unfold get_available_options, except_psycopg2, find_target_choices,
    find_selected_choice_uuids, find_incompatible_uuids, find_required_choices,
    execute_query, select, committed, surviving_choices, selected_uuids_of,
    incompatible_uuids_of, required_in_target_category_of, mbind, M_bind, mret, M_ret.
  cbn [store log fst snd].
  fold (current_selections_of data).
  destruct (target_choices_of t c db) as [|first_choice rest] eqn:Htc; [done|].
  rewrite (bool_decide_eq_false_2 (_ :: _ = [])) by done.
  case_bool_decide as Hcs; [done|].
  cbn [store log].
  destruct (map_to_list (current_selections_of data)) as [|pair pairs] eqn:Hpairs.
  { by apply map_to_list_empty_iff in Hpairs. }
  cbn [store log].
  case_bool_decide; cbn [store log].
  - by rewrite <- app_assoc.
  - rewrite available_options_of_filter. by rewrite <- !app_assoc.
Qed.

Lemma survives_true inc req choice :
  survives inc req choice = true
  ↔ (choice_id choice ∉ inc) ∧ (req = ∅ ∨ choice_id choice ∈ req).
Proof.
  unfold survives.
  destruct (decide (choice_id choice ∈ inc)) as [Hinc|Hinc].
  { rewrite bool_decide_eq_true_2 by done. naive_solver. }
  rewrite bool_decide_eq_false_2 by done.
  destruct (decide (req = ∅)) as [Hreq|Hreq].
  { rewrite bool_decide_eq_false_2 by naive_solver. naive_solver. }
  destruct (decide (choice_id choice ∈ req)) as [Hin|Hin].
  - rewrite bool_decide_eq_false_2 by naive_solver. naive_solver.
  - rewrite bool_decide_eq_true_2 by done. naive_solver.
Qed.

Lemma selected_uuids_of_cons db data :
  selected_uuids_of db data ≠ [] → current_selections_of data ≠ ∅.
Proof.
  intros Hsel Hcs. apply Hsel. unfold selected_uuids_of.
  rewrite Hcs, map_to_list_empty. apply selected_of_no_selection.
Qed.

Lemma get_available_options_filtered t c data conn :
  selected_uuids_of (store conn) data ≠ [] →
  (get_available_options t c data conn).1
  = Returns (jsonify (option_entry <$> surviving_choices (store conn) t c data)).
Proof.
  intros Hsel. rewrite get_available_options_run. cbn zeta.
  case_bool_decide as Htc.
  { unfold surviving_choices. by rewrite Htc. }
  rewrite bool_decide_eq_false_2 by by apply (selected_uuids_of_cons (store conn)).
  by rewrite bool_decide_eq_false_2.
Qed.

(** *** The example scenarios *)

Example scenario_incompatible :
  (get_available_options "T1" "SIZE" (selecting "COLOR" "red")
     (connect (T1_with [mkRule 1000 "INCOMPATIBLE_WITH" 100 111]))).1
  = Returns (jsonify [option_entry (mkChoice 110 11 "S" "Small" d0)]).
Proof. by vm_compute. Qed.

Example scenario_no_selection :
  (get_available_options "T1" "SIZE" (Some {[ "current_selections" := ∅ ]})
     (connect (T1_with [mkRule 1000 "INCOMPATIBLE_WITH" 100 111]))).1
  = Returns (jsonify [dict_of_row (mkChoice 110 11 "S" "Small" d0);
                      dict_of_row (mkChoice 111 11 "L" "Large" (Decimal 250 2))]).
Proof. by vm_compute. Qed.

Example scenario_requires :
  (get_available_options "T1" "SIZE" (selecting "COLOR" "red")
     (connect (T1_with [mkRule 1000 "REQUIRES" 100 111]))).1
  = Returns (jsonify [option_entry (mkChoice 111 11 "L" "Large" (Decimal 250 2))]).
Proof. by vm_compute. Qed.

(** * The claims *)

(** C1 (requirement whitelist).  When the resolved selection is not empty
    and at least one REQUIRES rule of a selected choice points into the
    target category, the result is exactly the target choices that are in
    the required set and not in the incompatible set; the required set is
    the union over all REQUIRES rules whose primary choice is selected, so a
    choice outside it is never returned. *)
Theorem requirement_whitelist t c data conn first_choice rest :
  let db := store conn in
  let selected_uuids := selected_uuids_of db data in
  let incompatible := incompatible_uuids_of db selected_uuids in
  let required :=
    required_in_category (required_choices_of selected_uuids db)
      (oc_category_id first_choice) in
  target_choices_of t c db = first_choice :: rest →
  selected_uuids ≠ [] →
  required ≠ ∅ →
  (get_available_options t c data conn).1
  = Returns (jsonify (option_entry <$>
                        filter (λ choice, choice_id choice ∈ required
                                          ∧ choice_id choice ∉ incompatible)
                               (first_choice :: rest)))
  ∧ ∀ u, u ∈ required ↔
         ∃ cr oc, cr ∈ CompatibilityRules db ∧ rule_type cr = "REQUIRES"
           ∧ primary_choice_id cr ∈ selected_uuids
           ∧ secondary_choice_id cr = u
           ∧ oc ∈ OptionChoices db ∧ choice_id oc = u
           ∧ oc_category_id oc = oc_category_id first_choice.
Proof.
  intros db selected_uuids incompatible required Htc Hsel Hreq. split.
  - rewrite get_available_options_filtered by done.
    unfold surviving_choices. fold db. rewrite Htc.
    fold selected_uuids incompatible. cbn [required_in_target_category_of].
    fold required. do 3 f_equal.
    apply list_filter_iff. intros choice. rewrite survives_true. naive_solver.
  - intros u. unfold required.
    rewrite elem_of_required_in_category, elem_of_required_choices_of.
    split.
    + intros (cr & oc & ? & ? & ? & ? & ? & [= -> ->]). exists cr, oc. naive_solver.
    + intros (cr & oc & ? & ? & ? & <- & ? & ? & <-). exists cr, oc. naive_solver.
Qed.

Lemma requirement_whitelist_witness :
  selected_uuids_of wardrobe red_wool = [100%N; 131%N]
  ∧ (get_available_options "T1" "SIZE" red_wool (connect wardrobe)).1
    = Returns (jsonify [option_entry (mkChoice 112 11 "M" "Medium" d0)])
  ∧ (112%N ∈ required_in_category (required_choices_of [100%N; 131%N] wardrobe) 11)
  ∧ (111%N ∈ required_in_category (required_choices_of [100%N; 131%N] wardrobe) 11).
Proof.
  split; [by vm_compute|].
  destruct (requirement_whitelist "T1" "SIZE" red_wool (connect wardrobe)
              (mkChoice 110 11 "S" "Small" d0)
              [mkChoice 112 11 "M" "Medium" d0;
               mkChoice 111 11 "L" "Large" (Decimal 250 2)])
    as [Hresponse Hrequired].
  - by vm_compute.
  - compute_done.
  - compute_done.
  - split; [rewrite Hresponse; by vm_compute|].
    change (selected_uuids_of (store (connect wardrobe)) red_wool)
      with [100%N; 131%N] in Hrequired.
    split; apply Hrequired.
    + exists (mkRule 1001 "REQUIRES" 131 112), (mkChoice 112 11 "M" "Medium" d0).
      repeat split; compute_done.
    + exists (mkRule 1000 "REQUIRES" 100 111),
        (mkChoice 111 11 "L" "Large" (Decimal 250 2)).
      repeat split; compute_done.
Defined.

(** C2 (symmetric incompatibility).  For an INCOMPATIBLE_WITH rule, when its
    primary choice is among the resolved selected ids its secondary choice
    is in the incompatible set and is not returned, and when its secondary
    choice is selected its primary choice is in the incompatible set and is
    not returned. *)
Theorem symmetric_incompatibility t c data conn cr :
  let db := store conn in
  let selected_uuids := selected_uuids_of db data in
  let returned := surviving_choices db t c data in
  cr ∈ CompatibilityRules db →
  rule_type cr = "INCOMPATIBLE_WITH" →
  primary_choice_id cr ∈ selected_uuids ∨ secondary_choice_id cr ∈ selected_uuids →
  (get_available_options t c data conn).1 = Returns (jsonify (option_entry <$> returned))
  ∧ (primary_choice_id cr ∈ selected_uuids →
       secondary_choice_id cr ∈ incompatible_uuids_of db selected_uuids
       ∧ secondary_choice_id cr ∉ choice_id <$> returned)
  ∧ (secondary_choice_id cr ∈ selected_uuids →
       primary_choice_id cr ∈ incompatible_uuids_of db selected_uuids
       ∧ primary_choice_id cr ∉ choice_id <$> returned).
Proof.
  intros db selected_uuids returned Hcr Hty Hsel.
  assert (∀ u, u ∈ incompatible_uuids_of db selected_uuids → u ∉ choice_id <$> returned)
    as Hout.
  { intros u Hu. unfold returned, surviving_choices. rewrite list_elem_of_fmap.
    intros (choice & -> & Hin). apply list_elem_of_filter in Hin as [Hs _].
    apply survives_true in Hs as [Hs _]. by apply Hs. }
  split; [|split].
  - apply get_available_options_filtered. fold db selected_uuids.
    intros Hnil. rewrite Hnil in Hsel. destruct Hsel as [H|H]; by apply elem_of_nil in H.
  - intros Hp.
    assert (secondary_choice_id cr ∈ incompatible_uuids_of db selected_uuids) as Hin.
    { apply elem_of_incompatible_uuids_of. exists cr. naive_solver. }
    split; [done|by apply Hout].
  - intros Hs.
    assert (primary_choice_id cr ∈ incompatible_uuids_of db selected_uuids) as Hin.
    { apply elem_of_incompatible_uuids_of. exists cr. naive_solver. }
    split; [done|by apply Hout].
Qed.

Lemma symmetric_incompatibility_witness :
  111%N ∈ incompatible_uuids_of wardrobe (selected_uuids_of wardrobe red_wool)
  ∧ 111%N ∉ choice_id <$> surviving_choices wardrobe "T1" "SIZE" red_wool.
Proof.
  destruct (symmetric_incompatibility "T1" "SIZE" red_wool (connect wardrobe)
              (mkRule 1002 "INCOMPATIBLE_WITH" 111 131))
    as (_ & _ & Hsecondary).
  - compute_done.
  - done.
  - right. compute_done.
  - apply Hsecondary. compute_done.
Defined.

(** C3 (incompatibility precedence).  A target choice that is both in the
    incompatible set and in the required set of the target category is not
    returned: the incompatibility test of the loop comes first. *)
Theorem incompatibility_precedence t c data conn choice :
  let db := store conn in
  let selected_uuids := selected_uuids_of db data in
  let target_choices := target_choices_of t c db in
  let incompatible := incompatible_uuids_of db selected_uuids in
  let required := required_in_target_category_of db selected_uuids target_choices in
  let returned := surviving_choices db t c data in
  choice ∈ target_choices →
  choice_id choice ∈ incompatible →
  choice_id choice ∈ required →
  (get_available_options t c data conn).1 = Returns (jsonify (option_entry <$> returned))
  ∧ survives incompatible required choice = false
  ∧ choice_id choice ∉ choice_id <$> returned.
Proof.
  intros db selected_uuids target_choices incompatible required returned Hin Hinc Hreq.
  split; [|split].
  - apply get_available_options_filtered. fold db selected_uuids. intros Hnil.
    apply elem_of_incompatible_uuids_of in Hinc as (cr & _ & _ & Hcr).
    fold selected_uuids in Hcr. rewrite Hnil in Hcr.
    destruct Hcr as [[_ H]|[_ H]]; by apply elem_of_nil in H.
  - unfold survives. by rewrite bool_decide_eq_true_2.
  - unfold returned, surviving_choices. rewrite list_elem_of_fmap.
    intros (choice' & Heq & Hin'). apply list_elem_of_filter in Hin' as [Hs _].
    apply survives_true in Hs as [Hs _]. apply Hs.
    fold db selected_uuids incompatible. by rewrite <- Heq.
Qed.

Lemma incompatibility_precedence_witness :
  (get_available_options "T1" "SIZE" red_wool (connect wardrobe)).1
  = Returns (jsonify [option_entry (mkChoice 112 11 "M" "Medium" d0)])
  ∧ 111%N ∉ choice_id <$> surviving_choices wardrobe "T1" "SIZE" red_wool.
Proof.
  destruct (incompatibility_precedence "T1" "SIZE" red_wool (connect wardrobe)
              (mkChoice 111 11 "L" "Large" (Decimal 250 2)))
    as (Hresponse & _ & Hout).
  - compute_done.
  - compute_done.
  - compute_done.
  - split; [rewrite Hresponse; by vm_compute|done].
Defined.

(** C4 (no-selection identity, unresolvable-selection degradation).  For a
    target category with choices, the response is the full list of its rows,
    status 200, when the selection is absent or empty and when none of its
    entries resolves to a choice; nothing is raised. *)
Theorem unresolved_selection_returns_all t c data conn :
  let db := store conn in
  target_choices_of t c db ≠ [] →
  (data = None
   ∨ current_selections_of data = ∅
   ∨ ∀ category_str_id choice_str_id,
       current_selections_of data !! category_str_id = Some choice_str_id →
       ¬ resolves db category_str_id choice_str_id) →
  (get_available_options t c data conn).1
  = Returns (Response (JsonList (dict_of_row <$> target_choices_of t c db)) 200).
Proof.
  intros db Htc Hsel. rewrite get_available_options_run. cbn zeta. fold db.
  rewrite bool_decide_eq_false_2 by done.
  case_bool_decide; [done|].
  rewrite bool_decide_eq_true_2; [done|].
  destruct Hsel as [->|[Hsel|Hsel]]; [done..|].
  apply elem_of_nil_inv. intros u. unfold selected_uuids_of.
  rewrite elem_of_selected_choice_uuids_of.
  intros (oc & ocat & Hoc & Hocat & Hjoin & Hin & _).
  apply elem_of_map_to_list in Hin. apply (Hsel _ _ Hin).
  by exists oc, ocat.
Qed.

Lemma unresolved_selection_returns_all_witness :
  (get_available_options "T1" "SIZE" (selecting "COLOR" "green") (connect wardrobe)).1
  = Returns (Response (JsonList (dict_of_row <$> target_choices_of "T1" "SIZE" wardrobe)) 200).
Proof.
  apply (unresolved_selection_returns_all "T1" "SIZE" (selecting "COLOR" "green")
           (connect wardrobe)).
  - compute_done.
  - right; right. intros category_str_id choice_str_id Hin.
    change (current_selections_of (selecting "COLOR" "green"))
      with ({[ "COLOR" := "green" ]} : gmap string string) in Hin.
    apply lookup_singleton_Some in Hin as [<- <-].
    intros (oc & ocat & Hoc & _ & _ & _ & Hgreen).
    cbn in Hoc. repeat (apply elem_of_cons in Hoc as [->|Hoc]); try done.
    by apply elem_of_nil in Hoc.
Defined.

(** The rows of the lookup for a selection are those for its pairs that
    name a choice. *)
Lemma selected_choice_uuids_of_resolvable selection_pairs db :
  selected_choice_uuids_of
    (filter (λ pair, selected_choice_uuids_of [pair] db ≠ []) selection_pairs) db
  = selected_choice_uuids_of selection_pairs db.
Proof.
  unfold selected_choice_uuids_of at 1 3.
  apply Forall_bind_ext, Forall_forall. intros oc Hoc.
  apply Forall_bind_ext, Forall_forall. intros ocat Hocat.
  apply list_elem_of_filter in Hocat as [Hjoin Hocat].
  rewrite (bool_decide_ext _ ((cat_str_id ocat, oc_str_id oc) ∈ selection_pairs));
    [done|].
  rewrite list_elem_of_filter.
  split; [naive_solver|]. intros Hin. split; [|done].
  intros Hnil.
  assert (choice_id oc ∈ selected_choice_uuids_of [(cat_str_id ocat, oc_str_id oc)] db)
    as Hu.
  { apply elem_of_selected_choice_uuids_of. exists oc, ocat.
    rewrite list_elem_of_singleton. naive_solver. }
  rewrite Hnil in Hu. by apply elem_of_nil in Hu.
Qed.

Lemma find_selected_choice_uuids_returns selection_pairs conn :
  selection_pairs ≠ [] →
  find_selected_choice_uuids selection_pairs conn
  = (Returns (selected_choice_uuids_of selection_pairs (store conn)),
     committed conn [SelectSelectedChoiceUuids selection_pairs]).
Proof.
  intros Hpairs. unfold find_selected_choice_uuids, execute_query, select, committed.
  by destruct selection_pairs.
Qed.

(** X6.  The resolver drops the pairs that name no choice: when at least one
    pair of a selection names a stored choice, the lookup returns, without
    raising, the same ids for the selection and for its pairs that name a
    choice. *)
Theorem unresolvable_pairs_dropped selection_pairs conn :
  let db := store conn in
  let resolvable :=
    filter (λ pair, selected_choice_uuids_of [pair] db ≠ []) selection_pairs in
  resolvable ≠ [] →
  (find_selected_choice_uuids selection_pairs conn).1
  = Returns (selected_choice_uuids_of selection_pairs db)
  ∧ (find_selected_choice_uuids resolvable conn).1
    = (find_selected_choice_uuids selection_pairs conn).1.
Proof.
  intros db resolvable Hsome.
  assert (selection_pairs ≠ []) as Hpairs.
  { intros ->. by apply Hsome. }
  rewrite !find_selected_choice_uuids_returns by done. cbn [fst].
  split; [done|]. unfold resolvable. fold db.
  by rewrite selected_choice_uuids_of_resolvable.
Qed.

Lemma unresolvable_pairs_dropped_witness :
  (find_selected_choice_uuids [("COLOR", "red")] (connect wardrobe)).1
  = (find_selected_choice_uuids [("COLOR", "green"); ("COLOR", "red"); ("HAT", "red")]
       (connect wardrobe)).1.
Proof.
  destruct (unresolvable_pairs_dropped
              [("COLOR", "green"); ("COLOR", "red"); ("HAT", "red")] (connect wardrobe))
    as [_ Hsame]; [compute_done|].
  rewrite <- Hsame. by vm_compute.
Defined.

(** C6 (empty-category invariance).  When the fetched target choices are
    empty, the response is the empty list with status 200 for every request
    body, after the one committed read; the template being absent, the
    category being absent from it, and the category having no choices all
    end there, with the same response and the same log. *)
Theorem empty_target_returns_empty t c data conn :
  let db := store conn in
  (target_choices_of t c db = []
   ∨ template_absent db t
   ∨ category_absent db t c
   ∨ category_without_choices db t c) →
  get_available_options t c data conn
  = (Returns (Response (JsonList []) 200), committed conn [SelectTargetChoices t c]).
Proof.
  intros db Hcause.
  assert (target_choices_of t c db = []) as Hnil.
  { destruct Hcause as [H|Hcause]; [done|].
    apply elem_of_nil_inv. intros oc.
    rewrite elem_of_target_choices_of.
    intros (Hoc & ocat & pt & Hocat & Hpt & Hjoin & Hjoin' & Ht & Hc).
    destruct Hcause as [H|[H|H]].
    - by apply (H pt).
    - by apply (H ocat pt).
    - by apply (H ocat pt oc). }
  rewrite get_available_options_run. cbn zeta. fold db.
  by rewrite bool_decide_eq_true_2.
Qed.

Lemma empty_target_returns_empty_witness :
  get_available_options "T9" "SIZE" red_wool (connect wardrobe)
  = (Returns (Response (JsonList []) 200),
     committed (connect wardrobe) [SelectTargetChoices "T9" "SIZE"]).
Proof.
  apply (empty_target_returns_empty "T9" "SIZE" red_wool (connect wardrobe)).
  right; left. intros pt Hpt. cbn in Hpt.
  apply list_elem_of_singleton in Hpt as ->. done.
Defined.

(** *** The shape of the entries *)

Lemma option_entry_float choice : float_entry (option_entry choice).
Proof.
  split; [|by eexists].
  unfold option_entry, option_fields.
  rewrite !dom_insert_L, dom_singleton_L. set_solver.
Qed.

Lemma float_entry_not_decimal e : float_entry e → ¬ decimal_entry e.
Proof. intros [_ [d Hd]] [_ [d' Hd']]. congruence. Qed.

Lemma dict_of_row_not_decimal row : ¬ decimal_entry (dict_of_row row).
Proof.
  intros [Hdom _].
  assert ("choice_id" ∈ dom (dict_of_row row)) as Hin.
  { apply elem_of_dom. by eexists. }
  rewrite Hdom in Hin. unfold option_fields in Hin. set_solver.
Qed.

(** C5 as stated fails: with [red] selected and no rule, the entries for
    [S] and [L] carry [price_delta] as a binary float; with no selection the
    entries are the whole rows, five fields each. *)
Lemma output_shape_counterexample :
  (get_available_options "T1" "SIZE" (selecting "COLOR" "red") (connect (T1_with []))).1
  = Returns (jsonify [option_entry (mkChoice 110 11 "S" "Small" d0);
                      option_entry (mkChoice 111 11 "L" "Large" (Decimal 250 2))])
  ∧ option_entry (mkChoice 110 11 "S" "Small" d0) !! "price_delta" = Some (PyFloat d0)
  ∧ ¬ decimal_entry (option_entry (mkChoice 110 11 "S" "Small" d0))
  ∧ (get_available_options "T1" "SIZE" None (connect (T1_with []))).1
    = Returns (jsonify [dict_of_row (mkChoice 110 11 "S" "Small" d0);
                        dict_of_row (mkChoice 111 11 "L" "Large" (Decimal 250 2))])
  ∧ ¬ decimal_entry (dict_of_row (mkChoice 110 11 "S" "Small" d0)).
Proof.
  split; [by vm_compute|]. split; [by vm_compute|].
  split; [apply float_entry_not_decimal, option_entry_float|].
  split; [by vm_compute|]. apply dict_of_row_not_decimal.
Qed.

(** C5, amended.  When the resolved selection is not empty, every entry of
    the response has exactly the fields [str_id], [name] and [price_delta],
    taken from one target choice, and [price_delta] is the stored decimal
    converted to a binary float. *)
Theorem filtered_entries_shape t c data conn :
  let db := store conn in
  selected_uuids_of db data ≠ [] →
  ∃ entries,
    (get_available_options t c data conn).1 = Returns (Response (JsonList entries) 200)
    ∧ Forall (λ e, float_entry e
                   ∧ ∃ choice, choice ∈ target_choices_of t c db
                       ∧ e !! "str_id" = Some (PyStr (oc_str_id choice))
                       ∧ e !! "name" = Some (PyStr (oc_name choice))
                       ∧ e !! "price_delta" = Some (PyFloat (price_delta choice)))
             entries.
Proof.
  intros db Hsel. eexists. split.
  { by apply get_available_options_filtered. }
  apply Forall_forall. intros e He.
  apply list_elem_of_fmap in He as (choice & -> & Hin).
  apply list_elem_of_filter in Hin as [_ Hin].
  split; [apply option_entry_float|]. by exists choice.
Qed.

Lemma filtered_entries_shape_witness :
  ∃ entries,
    (get_available_options "T1" "SIZE" red_wool (connect wardrobe)).1
    = Returns (Response (JsonList entries) 200)
    ∧ Forall float_entry entries.
Proof.
  destruct (filtered_entries_shape "T1" "SIZE" red_wool (connect wardrobe))
    as (entries & Hresponse & Hshape).
  - by vm_compute.
  - exists entries. split; [done|].
    eapply Forall_impl; [exact Hshape|]. by intros e [He _].
Defined.

(** A store may hold rules that link choices of two templates, though rule
    admission creates none.  [two_templates] holds two: [T1] has no category
    [COLOR] and the pair [(COLOR, red)] exists only in [T2]; a request on
    [T1] with that pair resolves it to [red] of [T2], whose INCOMPATIBLE_WITH
    rule then removes [L] from [SIZE] and whose REQUIRES rule narrows [TRIM]
    to [sport]. *)
Example cross_template_rules_constrain :
  category_absent two_templates "T1" "COLOR"
  ∧ selected_uuids_of two_templates (selecting "COLOR" "red") = [200%N]
  ∧ (get_available_options "T1" "SIZE" None (connect two_templates)).1
    = Returns (jsonify (dict_of_row <$>
                 [mkChoice 110 11 "S" "Small" d0;
                  mkChoice 111 11 "L" "Large" (Decimal 250 2)]))
  ∧ (get_available_options "T1" "SIZE" (selecting "COLOR" "red") (connect two_templates)).1
    = Returns (jsonify [option_entry (mkChoice 110 11 "S" "Small" d0)])
  ∧ (get_available_options "T1" "TRIM" None (connect two_templates)).1
    = Returns (jsonify (dict_of_row <$>
                 [mkChoice 120 12 "basic" "Basic" d0;
                  mkChoice 121 12 "sport" "Sport" (Decimal 500 2)]))
  ∧ (get_available_options "T1" "TRIM" (selecting "COLOR" "red") (connect two_templates)).1
    = Returns (jsonify [option_entry (mkChoice 121 12 "sport" "Sport" (Decimal 500 2))]).
Proof.
  split.
  { intros ocat pt Hocat Hpt Hjoin Ht.
    unfold two_templates in *. cbn in Hocat, Hpt.
    repeat (apply elem_of_cons in Hocat as [->|Hocat]); try by apply elem_of_nil in Hocat.
    all: repeat (apply elem_of_cons in Hpt as [->|Hpt]); try by apply elem_of_nil in Hpt.
    all: done. }
  repeat split; by vm_compute.
Qed.

(** *** Rule admission *)

(** C8 (caller input errors).  A request whose [rule_type] is neither
    REQUIRES nor INCOMPATIBLE_WITH, or whose two choice string identifiers
    are equal, is answered with status 400, and the connection is left as
    it was: no statement was executed, the store is unchanged. *)
Theorem caller_input_error_before_storage rule_accepted new_rule_id
    t (data : gmap string string) rule_type p s conn :
  data !! "rule_type" = Some rule_type →
  data !! "primary_choice_str_id" = Some p →
  data !! "secondary_choice_str_id" = Some s →
  (rule_type ≠ "REQUIRES" ∧ rule_type ≠ "INCOMPATIBLE_WITH") ∨ p = s →
  ∃ error,
    create_compatibility_rule rule_accepted new_rule_id t (Some data) conn
    = (Returns (Response (JsonError error) 400), conn).
Proof.
  intros Hty Hp Hs Hbad. unfold create_compatibility_rule. rewrite Hty, Hp, Hs.
  case_bool_decide as Hrt; [by eexists|].
  case_bool_decide as Heq; [by eexists|].
  naive_solver.
Qed.

Lemma caller_input_error_before_storage_witness :
  ∃ error,
    create_compatibility_rule accept_all count_from_1000 "T1"
      (rule_request "REQUIRES" "red" "red") (connect wardrobe)
    = (Returns (Response (JsonError error) 400), connect wardrobe).
Proof.
  apply (caller_input_error_before_storage accept_all count_from_1000 "T1"
           _ "REQUIRES" "red" "red").
  - by vm_compute.
  - by vm_compute.
  - by vm_compute.
  - by right.
Defined.

(** C7, on the code.  In [two_reds] both [red] and [L] name choices of [T1],
    yet the rule [red REQUIRES L] is refused with status 404, because the
    lookup returns three rows; and [ghost] names no choice, yet the rule
    [red REQUIRES ghost] passes the two-row test and the handler raises
    [KeyError] instead of answering 404.  No rule is inserted in either
    run. *)
Theorem admission_counts_rows_not_identifiers rule_accepted new_rule_id :
  let create := create_compatibility_rule rule_accepted new_rule_id "T1" in
  (resolves_in_template two_reds "T1" "red" ∧ resolves_in_template two_reds "T1" "L"
   ∧ length (choices_for_rule "T1" "red" "L" two_reds) = 3
   ∧ create (rule_request "REQUIRES" "red" "L") (connect two_reds)
     = (Returns (Response (JsonError "One or both choice IDs are invalid or do not belong to this product template.") 404),
        committed (connect two_reds) [SelectChoicesForRule "T1" "red" "L"]))
  ∧ (¬ resolves_in_template two_reds "T1" "ghost"
     ∧ length (choices_for_rule "T1" "red" "ghost" two_reds) = 2
     ∧ create (rule_request "REQUIRES" "red" "ghost") (connect two_reds)
       = (Raises KeyError,
          committed (connect two_reds) [SelectChoicesForRule "T1" "red" "ghost"])).
Proof.
  intros create. split.
  - split.
    { exists (mkChoice 100 10 "red" "Red" d0), (mkCategory 10 1 "COLOR" "Color"),
        (mkTemplate 1 "T1" "Shirt" (Decimal 1999 2)).
      unfold two_reds; cbn. set_solver. }
    split.
    { exists (mkChoice 111 11 "L" "Large" (Decimal 250 2)), (mkCategory 11 1 "SIZE" "Size"),
        (mkTemplate 1 "T1" "Shirt" (Decimal 1999 2)).
      unfold two_reds; cbn. set_solver. }
    split; [by vm_compute|]. by vm_compute.
  - split.
    { intros (oc & cat & pt & Hoc & _ & _ & _ & _ & _ & Hs).
      unfold two_reds in Hoc; cbn in Hoc.
      repeat (apply elem_of_cons in Hoc as [->|Hoc]); try done.
      by apply elem_of_nil in Hoc. }
    split; [by vm_compute|]. by vm_compute.
Qed.

(** *** Admission when choice string identifiers are unique in the template

    The two-row test of the handler decides whether both identifiers name a
    choice of the template exactly when no two choices of the template share
    a string identifier. *)

Lemma filter_bind {A B} (P : B → Prop) `{∀ x, Decision (P x)} (f : A → list B) l :
  filter P (l ≫= f) = l ≫= λ x, filter P (f x).
Proof.
  induction l as [|x l IH]; [done|].
  by rewrite !bind_cons, filter_app, IH.
Qed.

Lemma choices_for_rule_filter t p s db :
  choices_for_rule t p s db
  = filter (λ row, row.2 = p ∨ row.2 = s) (template_choices t db).
Proof.
  unfold choices_for_rule, template_choices.
  rewrite filter_bind. apply Forall_bind_ext, Forall_forall. intros oc _.
  rewrite filter_bind. apply Forall_bind_ext, Forall_forall. intros cat _.
  rewrite filter_bind. apply Forall_bind_ext, Forall_forall. intros pt _.
  destruct (decide (pt_str_id pt = t)) as [Ht|Ht].
  - rewrite (bool_decide_eq_true_2 (pt_str_id pt = t)) by done.
    rewrite filter_cons, filter_nil. cbn [snd].
    case_decide.
    + by rewrite bool_decide_eq_true_2.
    + rewrite bool_decide_eq_false_2; [done|naive_solver].
  - rewrite (bool_decide_eq_false_2 (pt_str_id pt = t)) by done.
    rewrite bool_decide_eq_false_2; [done|naive_solver].
Qed.

Lemma elem_of_template_choices t db row :
  row ∈ template_choices t db ↔
  ∃ oc cat pt, oc ∈ OptionChoices db ∧ cat ∈ OptionCategories db
      ∧ pt ∈ ProductTemplates db
      ∧ oc_category_id oc = category_id cat
      ∧ cat_template_id cat = template_id pt
      ∧ pt_str_id pt = t
      ∧ row = (choice_id oc, oc_str_id oc).
Proof. unfold template_choices. unfold_query. naive_solver. Qed.

Lemma resolves_in_template_rows db t s :
  resolves_in_template db t s ↔ s ∈ (template_choices t db).*2.
Proof.
  rewrite list_elem_of_fmap. setoid_rewrite elem_of_template_choices.
  unfold resolves_in_template. split.
  - intros (oc & cat & pt & ? & ? & ? & ? & ? & ? & <-).
    exists (choice_id oc, oc_str_id oc). split; [done|]. by exists oc, cat, pt.
  - intros (row & -> & oc & cat & pt & ? & ? & ? & ? & ? & ? & ->).
    by exists oc, cat, pt.
Qed.

Lemma filter_unique_length (rows : list (uuid * string)) p s :
  NoDup rows.*2 → p ≠ s →
  length (filter (λ row, row.2 = p ∨ row.2 = s) rows)
  = (if decide (p ∈ rows.*2) then 1 else 0) + (if decide (s ∈ rows.*2) then 1 else 0).
Proof.
  intros Hnodup Hps. induction rows as [|[u k] rows IH]; [done|].
  rewrite fmap_cons in Hnodup. apply NoDup_cons in Hnodup as [Hk Hnodup].
  specialize (IH Hnodup). rewrite filter_cons, fmap_cons. cbn [snd] in *.
  destruct (decide (k = p)) as [->|Hkp].
  - rewrite decide_True by naive_solver. cbn [length]. rewrite IH.
    rewrite (decide_True (P:=p ∈ p :: rows.*2)) by set_solver.
    rewrite (decide_False (P:=p ∈ rows.*2)) by done.
    destruct (decide (s ∈ rows.*2)).
    + by rewrite decide_True by set_solver.
    + by rewrite decide_False by set_solver.
  - destruct (decide (k = s)) as [->|Hks].
    + rewrite decide_True by naive_solver. cbn [length]. rewrite IH.
      rewrite (decide_True (P:=s ∈ s :: rows.*2)) by set_solver.
      rewrite (decide_False (P:=s ∈ rows.*2)) by done.
      destruct (decide (p ∈ rows.*2)).
      * rewrite decide_True by set_solver. lia.
      * rewrite decide_False by set_solver. lia.
    + rewrite decide_False by naive_solver. rewrite IH.
      rewrite (decide_ext (p ∈ k :: rows.*2) (p ∈ rows.*2)) by set_solver.
      by rewrite (decide_ext (s ∈ k :: rows.*2) (s ∈ rows.*2)) by set_solver.
Qed.

Lemma two_rows_iff_both_resolve t p s db :
  NoDup (template_choices t db).*2 → p ≠ s →
  length (choices_for_rule t p s db) = 2
  ↔ resolves_in_template db t p ∧ resolves_in_template db t s.
Proof.
  intros Hnodup Hps.
  rewrite choices_for_rule_filter, filter_unique_length, !resolves_in_template_rows
    by done.
  repeat case_decide; naive_solver lia.
Qed.

Lemma choice_map_of_fold_notin (rows : list (uuid * string)) (m : gmap string uuid) k :
  k ∉ rows.*2 →
  foldl (λ m choice, <[choice.2 := choice.1]> m) m rows !! k = m !! k.
Proof.
  revert m. induction rows as [|[u k'] rows IH]; intros m Hk; [done|].
  rewrite fmap_cons, not_elem_of_cons in Hk. destruct Hk as [Hne Hk].
  cbn [foldl fst snd] in *. rewrite IH by done. by rewrite lookup_insert_ne.
Qed.

Lemma choice_map_of_lookup (rows : list (uuid * string)) u k :
  NoDup rows.*2 → (u, k) ∈ rows → choice_map_of rows !! k = Some u.
Proof.
  unfold choice_map_of. generalize (∅ : gmap string uuid).
  induction rows as [|[u' k'] rows IH]; intros m Hnodup Hin.
  { by apply elem_of_nil in Hin. }
  rewrite fmap_cons in Hnodup. apply NoDup_cons in Hnodup as [Hk' Hnodup].
  cbn [foldl fst snd] in *. apply elem_of_cons in Hin as [[= <- <-]|Hin].
  - rewrite choice_map_of_fold_notin by done. apply lookup_insert_eq.
  - by apply IH.
Qed.

(** X9.  With unique choice string identifiers in the template, a well-formed
    request is admitted, and its rule inserted with the two canonical
    identifiers, exactly when both identifiers name a choice of the
    template; otherwise it is answered 404 after the one committed read. *)
Theorem admission_with_unique_identifiers rule_accepted new_rule_id
    t (data : gmap string string) rule_type p s conn :
  let db := store conn in
  let create :=
    create_compatibility_rule rule_accepted new_rule_id t (Some data) conn in
  data !! "rule_type" = Some rule_type →
  data !! "primary_choice_str_id" = Some p →
  data !! "secondary_choice_str_id" = Some s →
  rule_type = "REQUIRES" ∨ rule_type = "INCOMPATIBLE_WITH" →
  p ≠ s →
  NoDup (template_choices t db).*2 →
  (resolves_in_template db t p ∧ resolves_in_template db t s →
     ∃ primary_id secondary_id,
       (primary_id, p) ∈ template_choices t db
       ∧ (secondary_id, s) ∈ template_choices t db
       ∧ create
         = if rule_accepted db rule_type primary_id secondary_id then
             (Returns (Response (JsonRuleAdded (new_rule_id db)) 201),
              {| store :=
                   mkDatabase (ProductTemplates db) (OptionCategories db)
                     (OptionChoices db)
                     (CompatibilityRules db
                      ++ [mkRule (new_rule_id db) rule_type primary_id secondary_id]);
                 log :=
                   log conn
                   ++ [Execute (SelectChoicesForRule t p s); Commit;
                       Execute (InsertCompatibilityRule rule_type primary_id secondary_id);
                       Commit] |})
           else
             (Returns (Response JsonDatabaseError 409),
              {| store := db;
                 log :=
                   log conn
                   ++ [Execute (SelectChoicesForRule t p s); Commit;
                       Execute (InsertCompatibilityRule rule_type primary_id secondary_id);
                       Rollback] |}))
  ∧ (¬ (resolves_in_template db t p ∧ resolves_in_template db t s) →
       create
       = (Returns (Response (JsonError "One or both choice IDs are invalid or do not belong to this product template.") 404),
          committed conn [SelectChoicesForRule t p s])).
Proof.
  intros db create Hty Hp Hs Hvalid Hps Hnodup.
  pose proof (two_rows_iff_both_resolve t p s db Hnodup Hps) as Hlen.
  unfold create, create_compatibility_rule. rewrite Hty, Hp, Hs.
  rewrite bool_decide_eq_false_2 by naive_solver.
  rewrite bool_decide_eq_false_2 by done.
  unfold except_psycopg2, find_choices_for_rule, execute_query, select,
    mbind, M_bind. cbn [store log]. fold db.
  split.
  - intros Hboth. pose proof Hboth as [Hrp Hrs].
    apply resolves_in_template_rows, list_elem_of_fmap in Hrp as ([pid p'] & Hp' & Hrp).
    apply resolves_in_template_rows, list_elem_of_fmap in Hrs as ([sid s'] & Hs' & Hrs).
    cbn [snd] in *. subst p' s'. exists pid, sid. split; [done|]. split; [done|].
    rewrite bool_decide_eq_false_2 by (intros H; by apply H, Hlen).
    assert (NoDup (choices_for_rule t p s db).*2) as Hnodup'.
    { rewrite choices_for_rule_filter.
      eapply sublist_NoDup; [done|]. apply fmap_sublist, sublist_filter. }
    unfold getitem.
    rewrite (choice_map_of_lookup _ pid p), (choice_map_of_lookup _ sid s).
    2,3,4,5: try done.
    2,3: rewrite choices_for_rule_filter; apply list_elem_of_filter; naive_solver.
    unfold insert_compatibility_rule, execute_query, insert_rule, mret, M_ret.
    cbn [store log committed]. fold db.
    destruct (rule_accepted db rule_type pid sid); cbn [store log];
      by rewrite <- app_assoc.
  - intros Hnot. rewrite bool_decide_eq_true_2; [done|]. naive_solver.
Qed.

Lemma admission_with_unique_identifiers_witness :
  (create_compatibility_rule accept_all count_from_1000 "T1"
     (rule_request "REQUIRES" "red" "L") (connect (T1_with []))).1
  = Returns (Response (JsonRuleAdded 1000) 201)
  ∧ (create_compatibility_rule accept_all count_from_1000 "T1"
       (rule_request "REQUIRES" "red" "XL") (connect (T1_with []))).1
    = Returns (Response (JsonError "One or both choice IDs are invalid or do not belong to this product template.") 404).
Proof.
  split.
  - destruct (admission_with_unique_identifiers accept_all count_from_1000 "T1"
                {[ "rule_type" := "REQUIRES"; "primary_choice_str_id" := "red";
                   "secondary_choice_str_id" := "L" ]}
                "REQUIRES" "red" "L" (connect (T1_with [])))
      as [Hadmitted _]; [by vm_compute..|by left|done|compute_done|].
    destruct Hadmitted as (pid & sid & _ & _ & Hrun).
    + split; apply resolves_in_template_rows; compute_done.
    + unfold rule_request. rewrite Hrun. done.
  - destruct (admission_with_unique_identifiers accept_all count_from_1000 "T1"
                {[ "rule_type" := "REQUIRES"; "primary_choice_str_id" := "red";
                   "secondary_choice_str_id" := "XL" ]}
                "REQUIRES" "red" "XL" (connect (T1_with [])))
      as [_ Hrefused]; [by vm_compute..|by left|done|compute_done|].
    unfold rule_request. rewrite Hrefused; [done|].
    intros [_ Hxl]. apply resolves_in_template_rows in Hxl.
    apply (bool_decide_pack _) in Hxl. by vm_compute in Hxl.
Defined.

(** *** Transactions *)

Lemma transactions_from_autocommit current steps :
  transactions_from current (autocommit_log steps)
  = match steps with
    | [] => match current with [] => [] | _ => [current] end
    | step :: steps => (current ++ [step.1]) :: ((λ step : statement * bool, [step.1]) <$> steps)
    end.
Proof.
  revert current. induction steps as [|[q ok] steps IH]; intros current; [done|].
  unfold autocommit_log in *. rewrite bind_cons. cbn [app transactions_from fst snd].
  assert (transactions_from [] (steps ≫= λ step : statement * bool,
            [Execute step.1; if step.2 then Commit else Rollback])
          = (λ step : statement * bool, [step.1]) <$> steps) as Hrest.
  { rewrite IH. by destruct steps. }
  destruct ok; cbn [transactions_from]; by rewrite Hrest.
Qed.

Lemma transactions_autocommit steps :
  transactions (autocommit_log steps)
  = (λ step : statement * bool, [step.1]) <$> steps.
Proof.
  unfold transactions. rewrite transactions_from_autocommit. by destruct steps.
Qed.

Lemma autocommit_log_snoc steps q (ok : bool) :
  autocommit_log steps ++ [Execute q; if ok then Commit else Rollback]
  = autocommit_log (steps ++ [(q, ok)]).
Proof.
  unfold autocommit_log. by rewrite bind_app.
Qed.

Lemma connect_autocommitted db : autocommitted (connect db).
Proof. by exists []. Qed.

Lemma mret_preserves {A} (a : A) : preserves_autocommit (mret a).
Proof. by intros conn H. Qed.

Lemma raise_preserves {A} e : preserves_autocommit (@raise A e).
Proof. by intros conn H. Qed.

Lemma bind_preserves {A B} (m : M A) (k : A → M B) :
  preserves_autocommit m → (∀ a, preserves_autocommit (k a)) →
  preserves_autocommit (m ≫= k).
Proof.
  intros Hm Hk conn H. specialize (Hm conn H).
  unfold mbind, M_bind. destruct (m conn) as [[a|e] conn']; [|done].
  by apply Hk.
Qed.

Lemma except_preserves {A} (m h : M A) :
  preserves_autocommit m → preserves_autocommit h →
  preserves_autocommit (except_psycopg2 m h).
Proof.
  intros Hm Hh conn H. specialize (Hm conn H).
  unfold except_psycopg2. destruct (m conn) as [[a|[]] conn']; [done| |done].
  by apply Hh.
Qed.

Lemma execute_query_preserves {A} q (sem : database → option (A * database)) :
  preserves_autocommit (execute_query q sem).
Proof.
  intros conn [steps Hlog]. unfold execute_query.
  destruct (sem (store conn)) as [[result db']|]; cbn [snd log]; rewrite Hlog.
  - exists (steps ++ [(q, true)]). apply (autocommit_log_snoc steps q true).
  - exists (steps ++ [(q, false)]). apply (autocommit_log_snoc steps q false).
Qed.

Create HintDb autocommit.
#[local] Hint Resolve mret_preserves raise_preserves execute_query_preserves : autocommit.
#[local] Hint Extern 2 (preserves_autocommit (_ ≫= _)) =>
  apply bind_preserves; [|intros ?] : autocommit.
#[local] Hint Extern 2 (preserves_autocommit (except_psycopg2 _ _)) =>
  apply except_preserves : autocommit.
#[local] Hint Extern 3 (preserves_autocommit (if ?b then _ else _)) =>
  destruct b : autocommit.
#[local] Hint Extern 3 (preserves_autocommit (match ?x with _ => _ end)) =>
  destruct x : autocommit.

Lemma create_compatibility_rule_preserves rule_accepted new_rule_id t data :
  preserves_autocommit (create_compatibility_rule rule_accepted new_rule_id t data).
Proof.
  unfold create_compatibility_rule, find_choices_for_rule, getitem,
    insert_compatibility_rule.
  destruct data as [data|]; [|auto with autocommit].
  destruct (data !! "rule_type"), (data !! "primary_choice_str_id"),
    (data !! "secondary_choice_str_id"); auto 12 with autocommit.
Qed.

Lemma get_available_options_preserves t c data :
  preserves_autocommit (get_available_options t c data).
Proof.
  unfold get_available_options, find_target_choices, find_selected_choice_uuids,
    find_incompatible_uuids, find_required_choices.
  cbn zeta. auto 14 with autocommit.
Qed.

(** C10 as stated fails: creating [red INCOMPATIBLE_WITH L] on a fresh
    connection succeeds with the validation read and the insert in two
    transactions, the read committed first; and an evaluation commits each
    of its four reads on its own. *)
Lemma one_transaction_counterexample :
  let created :=
    create_compatibility_rule accept_all count_from_1000 "T1"
      (rule_request "INCOMPATIBLE_WITH" "red" "L") (connect (T1_with [])) in
  let evaluated :=
    get_available_options "T1" "SIZE" (selecting "COLOR" "red")
      (connect (T1_with [mkRule 1000 "INCOMPATIBLE_WITH" 100 111])) in
  created.1 = Returns (Response (JsonRuleAdded 1000) 201)
  ∧ store created.2 = T1_with [mkRule 1000 "INCOMPATIBLE_WITH" 100 111]
  ∧ log created.2
    = [Execute (SelectChoicesForRule "T1" "red" "L"); Commit;
       Execute (InsertCompatibilityRule "INCOMPATIBLE_WITH" 100 111); Commit]
  ∧ ¬ in_one_transaction (log created.2)
        (SelectChoicesForRule "T1" "red" "L")
        (InsertCompatibilityRule "INCOMPATIBLE_WITH" 100 111)
  ∧ transactions (log evaluated.2)
    = [[SelectTargetChoices "T1" "SIZE"];
       [SelectSelectedChoiceUuids [("COLOR", "red")]];
       [SelectIncompatibleUuids [100%N]];
       [SelectRequiredChoices [100%N]]].
Proof.
  intros created evaluated.
  assert (log created.2
          = [Execute (SelectChoicesForRule "T1" "red" "L"); Commit;
             Execute (InsertCompatibilityRule "INCOMPATIBLE_WITH" 100 111); Commit])
    as Hlog by by vm_compute.
  split; [by vm_compute|]. split; [by vm_compute|]. split; [done|].
  split; [|by vm_compute].
  rewrite Hlog. intros (tx & Htx & Hread & Hinsert).
  cbn in Htx.
  repeat (apply elem_of_cons in Htx as [->|Htx]).
  - apply list_elem_of_singleton in Hinsert. discriminate.
  - apply list_elem_of_singleton in Hread. discriminate.
  - by apply elem_of_nil in Htx.
Qed.

(** C10, amended.  On a fresh connection, every statement of a rule
    creation and of an evaluation runs alone in its transaction and is
    committed (or rolled back) before the next statement is executed: the
    log is a sequence of [Execute q] each followed at once by [Commit] or
    [Rollback], and every transaction holds one statement. *)
Theorem one_statement_per_transaction rule_accepted new_rule_id db t :
  (∀ data,
     let conn := (create_compatibility_rule rule_accepted new_rule_id t data
                    (connect db)).2 in
     ∃ steps, log conn = autocommit_log steps
              ∧ transactions (log conn)
                = (λ step : statement * bool, [step.1]) <$> steps)
  ∧ (∀ c data,
       let conn := (get_available_options t c data (connect db)).2 in
       ∃ steps, log conn = autocommit_log steps
                ∧ transactions (log conn)
                = (λ step : statement * bool, [step.1]) <$> steps).
Proof.
  split.
  - intros data conn.
    destruct (create_compatibility_rule_preserves rule_accepted new_rule_id t data
                (connect db) (connect_autocommitted db)) as [steps Hlog].
    exists steps. fold conn in Hlog. split; [done|].
    rewrite Hlog. apply transactions_autocommit.
  - intros c data conn.
    destruct (get_available_options_preserves t c data
                (connect db) (connect_autocommitted db)) as [steps Hlog].
    exists steps. fold conn in Hlog. split; [done|].
    rewrite Hlog. apply transactions_autocommit.
Qed.

(** * Further properties of the evaluation *)

Lemma filter_sublist_impl {A} (P Q : A → Prop) `{∀ x, Decision (P x)}
    `{∀ x, Decision (Q x)} (l : list A) :
  (∀ x, P x → Q x) → filter P l `sublist_of` filter Q l.
Proof.
  intros HPQ. induction l as [|x l IH]; [done|].
  rewrite !filter_cons. destruct (decide (P x)) as [HP|HP].
  - rewrite decide_True by auto. by apply sublist_skip.
  - destruct (decide (Q x)); [by apply sublist_cons|done].
Qed.

Lemma filter_all {A} (P : A → Prop) `{∀ x, Decision (P x)} (l : list A) :
  (∀ x, x ∈ l → P x) → filter P l = l.
Proof.
  intros HP. induction l as [|x l IH]; [done|].
  rewrite filter_cons, decide_True by (apply HP; left).
  f_equal. apply IH. intros y Hy. apply HP. by right.
Qed.

(** X4.  Every evaluation answers 200 with a list built from a sublist of
    the target choices: it returns no entry that is not a target choice
    and keeps the stored order; the entries are whole rows on the two early
    returns and three-field entries after filtering. *)
Lemma get_available_options_entries t c data conn :
  ∃ rows,
    rows `sublist_of` target_choices_of t c (store conn)
    ∧ ((get_available_options t c data conn).1 = Returns (jsonify (dict_of_row <$> rows))
       ∨ (get_available_options t c data conn).1
         = Returns (jsonify (option_entry <$> rows))).
Proof.
  rewrite get_available_options_run. cbn zeta.
  repeat case_bool_decide.
  - exists []. split; [apply sublist_nil_l|by left].
  - eexists. split; [reflexivity|by left].
  - eexists. split; [reflexivity|by left].
  - eexists. split; [|by right]. apply sublist_filter.
Qed.

(** The rule tables are read by the two rule lookups only. *)
Lemma target_choices_of_add_rule t c db cr :
  target_choices_of t c (add_rule db cr) = target_choices_of t c db.
Proof. done. Qed.

Lemma selected_uuids_of_add_rule db cr data :
  selected_uuids_of (add_rule db cr) data = selected_uuids_of db data.
Proof. done. Qed.

Lemma elem_of_incompatible_add_rule db cr selected_uuids u :
  u ∈ incompatible_uuids_of (add_rule db cr) selected_uuids ↔
  u ∈ incompatible_uuids_of db selected_uuids
  ∨ (rule_type cr = "INCOMPATIBLE_WITH"
     ∧ ((u = primary_choice_id cr ∧ secondary_choice_id cr ∈ selected_uuids)
        ∨ (u = secondary_choice_id cr ∧ primary_choice_id cr ∈ selected_uuids))).
Proof.
  rewrite !elem_of_incompatible_uuids_of. unfold add_rule. cbn [CompatibilityRules].
  split.
  - intros (cr' & Hin & Hty & Hu). apply elem_of_app in Hin as [Hin|Hin].
    + left. by exists cr'.
    + apply list_elem_of_singleton in Hin as ->. by right.
  - intros [(cr' & Hin & Hrest)|Hnew].
    + exists cr'. split; [|done]. apply elem_of_app. by left.
    + exists cr. split; [|done]. apply elem_of_app. right. by apply list_elem_of_singleton.
Qed.

Lemma required_choices_of_add_rule db cr selected_uuids :
  required_choices_of selected_uuids (add_rule db cr)
  = required_choices_of selected_uuids db
    ++ required_choices_of selected_uuids
         (mkDatabase [] [] (OptionChoices db) [cr]).
Proof.
  unfold required_choices_of, add_rule. cbn [CompatibilityRules OptionChoices].
  by rewrite bind_app.
Qed.

Lemma required_choices_of_unselected db cr selected_uuids :
  ¬ (rule_type cr = "REQUIRES" ∧ primary_choice_id cr ∈ selected_uuids) →
  required_choices_of selected_uuids (mkDatabase [] [] (OptionChoices db) [cr]) = [].
Proof.
  intros Hno. apply elem_of_nil_inv. intros row.
  rewrite elem_of_required_choices_of. cbn [CompatibilityRules].
  intros (cr' & oc & Hcr & _ & _ & Hty & Hp & _).
  apply list_elem_of_singleton in Hcr as ->. naive_solver.
Qed.

Lemma surviving_choices_filter db t c data :
  surviving_choices db t c data
  = filter (λ choice,
              (choice_id choice ∉ incompatible_uuids_of db (selected_uuids_of db data))
              ∧ (required_in_target_category_of db (selected_uuids_of db data)
                   (target_choices_of t c db) = ∅
                 ∨ choice_id choice
                   ∈ required_in_target_category_of db (selected_uuids_of db data)
                       (target_choices_of t c db)))
           (target_choices_of t c db).
Proof.
  unfold surviving_choices. apply list_filter_iff. intros choice.
  apply survives_true.
Qed.

Lemma required_in_target_category_of_add_rule db cr selected_uuids target_choices :
  ¬ (rule_type cr = "REQUIRES" ∧ primary_choice_id cr ∈ selected_uuids) →
  required_in_target_category_of (add_rule db cr) selected_uuids target_choices
  = required_in_target_category_of db selected_uuids target_choices.
Proof.
  intros Hno. unfold required_in_target_category_of.
  destruct target_choices as [|first_choice rest]; [done|].
  by rewrite required_choices_of_add_rule, required_choices_of_unselected, app_nil_r.
Qed.

(** X1.  Without a REQUIRES rule from a selected choice into the target category,
    the evaluation is a blacklist: it returns exactly the target choices
    that are not incompatible with the selection. *)
Theorem blacklist_without_requirement t c data conn first_choice rest :
  let db := store conn in
  let selected_uuids := selected_uuids_of db data in
  target_choices_of t c db = first_choice :: rest →
  selected_uuids ≠ [] →
  (∀ cr oc, cr ∈ CompatibilityRules db → rule_type cr = "REQUIRES" →
     primary_choice_id cr ∈ selected_uuids →
     oc ∈ OptionChoices db → choice_id oc = secondary_choice_id cr →
     oc_category_id oc ≠ oc_category_id first_choice) →
  (get_available_options t c data conn).1
  = Returns (jsonify (option_entry <$>
                        filter (λ choice,
                                  choice_id choice
                                  ∉ incompatible_uuids_of db selected_uuids)
                               (first_choice :: rest))).
Proof.
  intros db selected_uuids Htc Hsel Hnone.
  rewrite get_available_options_filtered by done. fold db.
  rewrite surviving_choices_filter, Htc. fold selected_uuids.
  assert (required_in_target_category_of db selected_uuids (first_choice :: rest) = ∅)
    as Hreq.
  { apply set_eq. intros u. split; [|by intros ?%not_elem_of_empty].
    cbn [required_in_target_category_of].
    rewrite elem_of_required_in_category, elem_of_required_choices_of.
    intros (cr & oc & Hcr & Hoc & Hjoin & Hty & Hp & [= -> Hcat]).
    exfalso. by apply (Hnone cr oc). }
  rewrite Hreq. do 3 f_equal. apply list_filter_iff. naive_solver.
Qed.

Lemma blacklist_without_requirement_witness :
  (get_available_options "T1" "SIZE" (selecting "COLOR" "red")
     (connect (T1_with [mkRule 1000 "INCOMPATIBLE_WITH" 111 100;
                        mkRule 1001 "REQUIRES" 101 110]))).1
  = Returns (jsonify [option_entry (mkChoice 110 11 "S" "Small" d0)]).
Proof.
  rewrite (blacklist_without_requirement "T1" "SIZE" (selecting "COLOR" "red")
             (connect (T1_with [mkRule 1000 "INCOMPATIBLE_WITH" 111 100;
                                mkRule 1001 "REQUIRES" 101 110]))
             (mkChoice 110 11 "S" "Small" d0)
             [mkChoice 111 11 "L" "Large" (Decimal 250 2)]).
  - by vm_compute.
  - compute_done.
  - compute_done.
  - intros cr oc Hcr Hty Hp Hoc Hid. exfalso.
    cbn in Hcr. repeat (apply elem_of_cons in Hcr as [->|Hcr]); try done.
    + vm_compute in Hp. by apply list_elem_of_singleton in Hp.
    + by apply elem_of_nil in Hcr.
Defined.

(** X2.  A rule that is not anchored at a selected choice changes nothing: an
    INCOMPATIBLE_WITH rule with neither endpoint selected, a REQUIRES rule
    whose primary choice is not selected (its secondary choice may be), and
    a rule of any other type.  Rules are read one hop from the selection,
    REQUIRES in one direction only. *)
Theorem unanchored_rule_ignored t c data db cr :
  let selected_uuids := selected_uuids_of db data in
  (rule_type cr = "INCOMPATIBLE_WITH" →
     (primary_choice_id cr ∉ selected_uuids) ∧ (secondary_choice_id cr ∉ selected_uuids)) →
  (rule_type cr = "REQUIRES" → primary_choice_id cr ∉ selected_uuids) →
  (get_available_options t c data (connect (add_rule db cr))).1
  = (get_available_options t c data (connect db)).1.
Proof.
  intros selected_uuids Hinc Hreq.
  rewrite !get_available_options_run. cbn zeta. cbn [store connect].
  rewrite target_choices_of_add_rule, selected_uuids_of_add_rule.
  repeat case_bool_decide; try done. cbn [fst]. do 3 f_equal.
  rewrite !surviving_choices_filter.
  rewrite target_choices_of_add_rule, selected_uuids_of_add_rule.
  fold selected_uuids.
  rewrite required_in_target_category_of_add_rule by naive_solver.
  apply list_filter_iff. intros choice.
  rewrite elem_of_incompatible_add_rule. naive_solver.
Qed.

Lemma unanchored_rule_ignored_witness :
  (get_available_options "T1" "SIZE" (selecting "COLOR" "red")
     (connect (add_rule (add_rule wardrobe (mkRule 1003 "REQUIRES" 111 110))
                 (mkRule 1004 "INCOMPATIBLE_WITH" 101 111)))).1
  = (get_available_options "T1" "SIZE" (selecting "COLOR" "red") (connect wardrobe)).1.
Proof.
  rewrite (unanchored_rule_ignored "T1" "SIZE" (selecting "COLOR" "red")
             (add_rule wardrobe (mkRule 1003 "REQUIRES" 111 110))
             (mkRule 1004 "INCOMPATIBLE_WITH" 101 111)).
  - apply (unanchored_rule_ignored "T1" "SIZE" (selecting "COLOR" "red") wardrobe
             (mkRule 1003 "REQUIRES" 111 110)).
    + done.
    + intros _ Hp. vm_compute in Hp. by apply list_elem_of_singleton in Hp.
  - intros _. split; intros Hp; vm_compute in Hp; by apply list_elem_of_singleton in Hp.
  - done.
Defined.

(** X3.  One more INCOMPATIBLE_WITH rule can only remove options: the entries
    returned with the rule are a sublist of those returned without it. *)
Theorem incompatible_rule_only_removes t c data db id p s :
  ∃ before after,
    (get_available_options t c data (connect db)).1 = Returns (jsonify before)
    ∧ (get_available_options t c data
         (connect (add_rule db (mkRule id "INCOMPATIBLE_WITH" p s)))).1
      = Returns (jsonify after)
    ∧ after `sublist_of` before.
Proof.
  rewrite !get_available_options_run. cbn zeta. cbn [store connect].
  rewrite target_choices_of_add_rule, selected_uuids_of_add_rule.
  repeat case_bool_decide; try (by do 2 eexists).
  do 2 eexists. split; [done|]. split; [done|].
  apply fmap_sublist. rewrite !surviving_choices_filter.
  rewrite target_choices_of_add_rule, selected_uuids_of_add_rule.
  rewrite required_in_target_category_of_add_rule by (cbn; naive_solver).
  apply filter_sublist_impl. intros choice [Hinc Hreq]. split; [|done].
  intros Hin. apply Hinc, elem_of_incompatible_add_rule. by left.
Qed.

(** *** Selections from other templates *)

Lemma target_choice_in_template t c db choice :
  choice ∈ target_choices_of t c db →
  ∃ pt, pt ∈ ProductTemplates db ∧ pt_str_id pt = t
        ∧ choice_in_template db (choice_id choice) (template_id pt)
        ∧ ∃ ocat, ocat ∈ OptionCategories db
            ∧ oc_category_id choice = category_id ocat
            ∧ cat_template_id ocat = template_id pt.
Proof.
  rewrite elem_of_target_choices_of.
  intros (Hoc & ocat & pt & Hocat & Hpt & Hjoin & Hjoin' & Ht & Hc).
  exists pt. split; [done|]. split; [done|]. split.
  - by exists choice, ocat.
  - by exists ocat.
Qed.

(** X5.  When every rule links two choices of one template and a choice
    identifier belongs to one template only, selected choices that are in no
    template called [t] impose nothing on a category of [t]: every target
    choice is returned. *)
Theorem foreign_selection_harmless t c data conn :
  let db := store conn in
  rules_within_templates db →
  choice_template_unique db →
  selected_uuids_of db data ≠ [] →
  (∀ u, u ∈ selected_uuids_of db data → foreign_to db t u) →
  (get_available_options t c data conn).1
  = Returns (jsonify (option_entry <$> target_choices_of t c db)).
Proof.
  intros db Hrules Hunique Hsel Hforeign.
  rewrite get_available_options_filtered by done. fold db.
  do 3 f_equal. rewrite surviving_choices_filter.
  assert (required_in_target_category_of db (selected_uuids_of db data)
            (target_choices_of t c db) = ∅) as Hreq.
  { destruct (target_choices_of t c db) as [|first_choice rest] eqn:Htc; [done|].
    apply set_eq. intros u. split; [|by intros ?%not_elem_of_empty].
    cbn [required_in_target_category_of].
    rewrite elem_of_required_in_category, elem_of_required_choices_of.
    intros (cr & oc & Hcr & Hoc & Hjoin & Hty & Hp & [= -> Hcat]). exfalso.
    assert (first_choice ∈ target_choices_of t c db) as Hfirst by (rewrite Htc; left).
    apply target_choice_in_template
      in Hfirst as (pt & Hpt & Ht & _ & ocat & Hocat & Hjoin1 & Hjoin2).
    destruct (Hrules cr Hcr) as (tid & Hprimary & Hsecondary).
    assert (choice_in_template db (secondary_choice_id cr) (template_id pt)) as Hhere.
    { exists oc, ocat. repeat split; try done. congruence. }
    rewrite (Hunique _ _ _ Hsecondary Hhere) in Hprimary.
    by apply (Hforeign _ Hp pt). }
  rewrite Hreq. apply filter_all. intros choice Hin.
  split; [|by left].
  intros Hinc. apply elem_of_incompatible_uuids_of in Hinc as (cr & Hcr & Hty & Hends).
  apply target_choice_in_template in Hin as (pt & Hpt & Ht & Hhere & _).
  destruct (Hrules cr Hcr) as (tid & Hprimary & Hsecondary).
  destruct Hends as [[Hid Hs]|[Hid Hs]]; rewrite Hid in Hhere.
  - rewrite (Hunique _ _ _ Hprimary Hhere) in Hsecondary.
    by apply (Hforeign _ Hs pt).
  - rewrite (Hunique _ _ _ Hsecondary Hhere) in Hprimary.
    by apply (Hforeign _ Hs pt).
Qed.

Lemma foreign_selection_harmless_witness :
  (get_available_options "T1" "SIZE" (selecting "COLOR" "red") (connect two_shops)).1
  = Returns (jsonify (option_entry <$> target_choices_of "T1" "SIZE" two_shops)).
Proof.
  apply (foreign_selection_harmless "T1" "SIZE" (selecting "COLOR" "red")
           (connect two_shops)).
  - intros cr Hcr. cbn in Hcr. enumerate Hcr.
    + exists 2%N. split.
      * exists (mkChoice 200 20 "red" "Red" d0), (mkCategory 20 2 "COLOR" "Color").
        repeat split; compute_done.
      * exists (mkChoice 201 20 "pink" "Pink" d0), (mkCategory 20 2 "COLOR" "Color").
        repeat split; compute_done.
    + exists 1%N. split.
      * exists (mkChoice 110 11 "S" "Small" d0), (mkCategory 11 1 "SIZE" "Size").
        repeat split; compute_done.
      * exists (mkChoice 111 11 "L" "Large" (Decimal 250 2)),
          (mkCategory 11 1 "SIZE" "Size").
        repeat split; compute_done.
  - intros u tid tid' (oc & cat & Hoc & Hcat & <- & Hjoin & <-)
      (oc' & cat' & Hoc' & Hcat' & Hid & Hjoin' & <-).
    cbn in Hoc, Hcat, Hoc', Hcat'.
    enumerate Hoc; enumerate Hcat; try done;
      enumerate Hoc'; try done; enumerate Hcat'; done.
  - compute_done.
  - intros u Hu. vm_compute in Hu. apply list_elem_of_singleton in Hu as ->.
    intros pt Hpt Ht (oc & cat & Hoc & Hcat & Hid & Hjoin & Htid).
    cbn in Hpt, Hoc, Hcat.
    enumerate Hpt; try done. enumerate Hoc; try done; enumerate Hcat; done.
Defined.

Lemma filter_ext_in {A} (P Q : A → Prop) `{∀ x, Decision (P x)} `{∀ x, Decision (Q x)}
    (l : list A) :
  (∀ x, x ∈ l → P x ↔ Q x) → filter P l = filter Q l.
Proof.
  intros HPQ. induction l as [|x l IH]; [done|].
  rewrite !filter_cons.
  rewrite (decide_ext (P x) (Q x)) by (apply HPQ; left).
  rewrite IH; [done|]. intros y Hy. apply HPQ. by right.
Qed.

Lemma surviving_choices_survivors db t c data :
  surviving_choices db t c data = survivors db t c (selected_uuids_of db data).
Proof. done. Qed.

Section ForeignIdentifiers.

Variable db : database.
Variables t c : string.
Variables selected_uuids kept_uuids : list uuid.

Hypothesis Hrules : rules_within_templates db.
Hypothesis Hunique : choice_template_unique db.
Hypothesis Hkept : ∀ u, u ∈ kept_uuids → u ∈ selected_uuids.
Hypothesis Hforeign :
  ∀ u, u ∈ selected_uuids → u ∉ kept_uuids → foreign_to db t u.

(** A rule with an endpoint in a template called [t] has no foreign
    endpoint. *)
Lemma rule_of_template_not_foreign cr pt u v :
  cr ∈ CompatibilityRules db →
  (u = primary_choice_id cr ∧ v = secondary_choice_id cr)
  ∨ (u = secondary_choice_id cr ∧ v = primary_choice_id cr) →
  pt ∈ ProductTemplates db → pt_str_id pt = t →
  choice_in_template db u (template_id pt) →
  v ∈ selected_uuids → v ∈ kept_uuids.
Proof.
  intros Hcr Hends Hpt Ht Hhere Hv.
  destruct (decide (v ∈ kept_uuids)) as [|Hout]; [done|]. exfalso.
  destruct (Hrules cr Hcr) as (tid & Hprimary & Hsecondary).
  apply (Hforeign v Hv Hout pt Hpt Ht).
  destruct Hends as [[-> ->]|[-> ->]].
  - by rewrite <- (Hunique _ _ _ Hprimary Hhere).
  - by rewrite <- (Hunique _ _ _ Hsecondary Hhere).
Qed.

Lemma required_in_target_category_kept :
  required_in_target_category_of db selected_uuids (target_choices_of t c db)
  = required_in_target_category_of db kept_uuids (target_choices_of t c db).
Proof.
  destruct (target_choices_of t c db) as [|first_choice rest] eqn:Htc; [done|].
  assert (first_choice ∈ target_choices_of t c db) as Hfirst by (rewrite Htc; left).
  apply target_choice_in_template
    in Hfirst as (pt & Hpt & Ht & _ & ocat & Hocat & Hjoin1 & Hjoin2).
  cbn [required_in_target_category_of]. apply set_eq. intros u.
  rewrite !elem_of_required_in_category, !elem_of_required_choices_of.
  split; intros (cr & oc & Hcr & Hoc & Hjoin & Hty & Hp & Hrow);
    exists cr, oc; repeat split; try done; [|by apply Hkept].
  injection Hrow as -> Hcat.
  apply (rule_of_template_not_foreign cr pt (secondary_choice_id cr)); try done.
  - by right.
  - exists oc, ocat. repeat split; try done. congruence.
Qed.

Lemma incompatible_target_kept choice :
  choice ∈ target_choices_of t c db →
  choice_id choice ∈ incompatible_uuids_of db selected_uuids
  ↔ choice_id choice ∈ incompatible_uuids_of db kept_uuids.
Proof.
  intros Hin. apply target_choice_in_template in Hin as (pt & Hpt & Ht & Hhere & _).
  rewrite !elem_of_incompatible_uuids_of.
  split; intros (cr & Hcr & Hty & Hends); exists cr; (split; [done|]); (split; [done|]).
  - destruct Hends as [[Hid Hs]|[Hid Hs]]; [left|right]; (split; [done|]).
    + apply (rule_of_template_not_foreign cr pt (choice_id choice)); try done. by left.
    + apply (rule_of_template_not_foreign cr pt (choice_id choice)); try done. by right.
  - destruct Hends as [[Hid Hs]|[Hid Hs]]; [left|right]; (split; [done|]);
      by apply Hkept.
Qed.

(** The selected identifiers of choices foreign to the templates called [t]
    take no part in the filter. *)
Lemma survivors_kept : survivors db t c selected_uuids = survivors db t c kept_uuids.
Proof.
  unfold survivors. cbn zeta. rewrite required_in_target_category_kept.
  apply filter_ext_in. intros choice Hin.
  rewrite !survives_true. by rewrite (incompatible_target_kept choice Hin).
Qed.

End ForeignIdentifiers.

Lemma two_shops_rules_within_templates : rules_within_templates two_shops.
Proof.
  intros cr Hcr. cbn in Hcr. enumerate Hcr.
  - exists 2%N. split.
    + exists (mkChoice 200 20 "red" "Red" d0), (mkCategory 20 2 "COLOR" "Color").
      repeat split; compute_done.
    + exists (mkChoice 201 20 "pink" "Pink" d0), (mkCategory 20 2 "COLOR" "Color").
      repeat split; compute_done.
  - exists 1%N. split.
    + exists (mkChoice 110 11 "S" "Small" d0), (mkCategory 11 1 "SIZE" "Size").
      repeat split; compute_done.
    + exists (mkChoice 111 11 "L" "Large" (Decimal 250 2)),
        (mkCategory 11 1 "SIZE" "Size").
      repeat split; compute_done.
Qed.

Lemma two_shops_choice_template_unique : choice_template_unique two_shops.
Proof.
  intros u tid tid' (oc & cat & Hoc & Hcat & <- & Hjoin & <-)
    (oc' & cat' & Hoc' & Hcat' & Hid & Hjoin' & <-).
  cbn in Hoc, Hcat, Hoc', Hcat'.
  enumerate Hoc; enumerate Hcat; try done;
    enumerate Hoc'; try done; enumerate Hcat'; done.
Qed.

Lemma two_shops_red_foreign : foreign_to two_shops "T1" 200.
Proof.
  intros pt Hpt Ht (oc & cat & Hoc & Hcat & Hid & Hjoin & Htid).
  cbn in Hpt, Hoc, Hcat.
  enumerate Hpt; try done. enumerate Hoc; try done; enumerate Hcat; done.
Qed.

(** C9 as stated fails wherever rule admission has kept the rules inside
    templates: there is no store in which every rule links two choices of
    one template and a choice identifier belongs to one template, no
    request and no selection for which the selected choices foreign to the
    request's template change the rows that are returned. *)
Lemma foreign_rules_constrain_nothing :
  ¬ ∃ db t c selected_uuids kept_uuids,
      rules_within_templates db
      ∧ choice_template_unique db
      ∧ (∀ u, u ∈ kept_uuids → u ∈ selected_uuids)
      ∧ (∀ u, u ∈ selected_uuids → u ∉ kept_uuids → foreign_to db t u)
      ∧ survivors db t c selected_uuids ≠ survivors db t c kept_uuids.
Proof.
  intros (db & t & c & selected_uuids & kept_uuids
          & Hrules & Hunique & Hkept & Hforeign & Hdiffer).
  apply Hdiffer. by apply survivors_kept.
Qed.

(** C9, amended (selection resolution is global).  For some input the pair
    of a selection entry names a category and a choice that exist only in
    another template than the one of the request, and the entry still
    resolves to that foreign choice's identifier: in [two_shops], [T1] has no
    category [COLOR], the pair [(COLOR, red)] resolves to [red] of [T2], the
    resolved selection is not empty and the evaluation filters.  On every
    store in which each rule links two choices of one template and a choice
    identifier belongs to one template, the foreign choice's rules constrain
    nothing: the rows returned are those the loop keeps for the selected
    identifiers without the foreign ones. *)
Theorem foreign_selection_resolves_without_constraining :
  (category_absent two_shops "T1" "COLOR"
   ∧ selected_uuids_of two_shops (selecting "COLOR" "red") = [200%N]
   ∧ foreign_to two_shops "T1" 200
   ∧ (get_available_options "T1" "SIZE" (selecting "COLOR" "red")
        (connect two_shops)).1
     = Returns (jsonify (option_entry <$> target_choices_of "T1" "SIZE" two_shops))
   ∧ (get_available_options "T1" "SIZE" None (connect two_shops)).1
     = Returns (jsonify (dict_of_row <$> target_choices_of "T1" "SIZE" two_shops)))
  ∧ ∀ t c data conn kept_uuids,
      let db := store conn in
      let selected_uuids := selected_uuids_of db data in
      rules_within_templates db →
      choice_template_unique db →
      (∀ u, u ∈ kept_uuids → u ∈ selected_uuids) →
      (∀ u, u ∈ selected_uuids → u ∉ kept_uuids → foreign_to db t u) →
      selected_uuids ≠ [] →
      (get_available_options t c data conn).1
      = Returns (jsonify (option_entry <$> survivors db t c kept_uuids)).
Proof.
  split.
  - split.
    { intros ocat pt Hocat Hpt Hjoin Ht. cbn in Hocat, Hpt.
      enumerate Hocat; enumerate Hpt; done. }
    split; [by vm_compute|]. split; [apply two_shops_red_foreign|].
    split; by vm_compute.
  - intros t c data conn kept_uuids db selected_uuids Hrules Hunique Hkept Hforeign Hsel.
    rewrite get_available_options_filtered by done. fold db.
    rewrite surviving_choices_survivors. fold selected_uuids.
    by rewrite (survivors_kept db t c selected_uuids kept_uuids).
Qed.

Lemma foreign_selection_resolves_without_constraining_witness :
  selected_uuids_of two_shops red_and_small = [110%N; 200%N]
  ∧ (get_available_options "T1" "SIZE" red_and_small (connect two_shops)).1
    = Returns (jsonify [option_entry (mkChoice 111 11 "L" "Large" (Decimal 250 2))])
  ∧ survivors two_shops "T1" "SIZE" [110%N]
    = [mkChoice 111 11 "L" "Large" (Decimal 250 2)].
Proof.
  split; [by vm_compute|].
  destruct foreign_selection_resolves_without_constraining as [_ Hevery].
  rewrite (Hevery "T1" "SIZE" red_and_small (connect two_shops) [110%N]).
  - split; by vm_compute.
  - apply two_shops_rules_within_templates.
  - apply two_shops_choice_template_unique.
  - intros u Hu. apply list_elem_of_singleton in Hu as ->. compute_done.
  - intros u Hu Hout.
    assert (selected_uuids_of (store (connect two_shops)) red_and_small
            = [110%N; 200%N]) as Hsel by by vm_compute.
    rewrite Hsel, !elem_of_cons, elem_of_nil in Hu.
    rewrite list_elem_of_singleton in Hout.
    destruct Hu as [->|[->|[]]]; [by destruct Hout|]. apply two_shops_red_foreign.
  - compute_done.
Defined.

(** * Further properties of rule admission *)

Lemma choice_map_of_fold_Some (rows : list (uuid * string)) (m : gmap string uuid) k u :
  foldl (λ m choice, <[choice.2 := choice.1]> m) m rows !! k = Some u →
  (u, k) ∈ rows ∨ m !! k = Some u.
Proof.
  revert m. induction rows as [|[u' k'] rows IH]; intros m Hlookup; [by right|].
  cbn [foldl fst snd] in Hlookup. apply IH in Hlookup as [Hin|Hm].
  - left. by right.
  - destruct (decide (k' = k)) as [->|Hne].
    + rewrite lookup_insert_eq in Hm. injection Hm as ->. left. left.
    + rewrite lookup_insert_ne in Hm by done. by right.
Qed.

Lemma choice_map_of_Some rows k u :
  choice_map_of rows !! k = Some u → (u, k) ∈ rows.
Proof.
  intros [Hin|Hempty]%choice_map_of_fold_Some; [done|].
  by rewrite lookup_empty in Hempty.
Qed.

(** The two ways a rule creation ends: the store as it was and no 201, or
    one rule appended and the 201 that names it. *)
Lemma create_compatibility_rule_cases rule_accepted new_rule_id t data conn :
  let db := store conn in
  let run := create_compatibility_rule rule_accepted new_rule_id t data conn in
  (store run.2 = db ∧ ∀ rid, run.1 ≠ Returns (Response (JsonRuleAdded rid) 201))
  ∨ ∃ d rule_type p s pid sid,
      data = Some d
      ∧ d !! "rule_type" = Some rule_type
      ∧ d !! "primary_choice_str_id" = Some p
      ∧ d !! "secondary_choice_str_id" = Some s
      ∧ (rule_type = "REQUIRES" ∨ rule_type = "INCOMPATIBLE_WITH")
      ∧ p ≠ s
      ∧ (pid, p) ∈ template_choices t db
      ∧ (sid, s) ∈ template_choices t db
      ∧ rule_accepted db rule_type pid sid = true
      ∧ run
        = (Returns (Response (JsonRuleAdded (new_rule_id db)) 201),
           {| store := add_rule db (mkRule (new_rule_id db) rule_type pid sid);
              log :=
                log conn
                ++ [Execute (SelectChoicesForRule t p s); Commit;
                    Execute (InsertCompatibilityRule rule_type pid sid); Commit] |}).
Proof.
  intros db run. unfold run, create_compatibility_rule.
  destruct data as [d|]; [|by left].
  destruct (d !! "rule_type") as [rule_type|] eqn:Hty; [|by left].
  destruct (d !! "primary_choice_str_id") as [p|] eqn:Hp; [|by left].
  destruct (d !! "secondary_choice_str_id") as [s|] eqn:Hs; [|by left].
  case_bool_decide as Hvalid; [by left|].
  case_bool_decide as Hps; [by left|].
  unfold except_psycopg2, find_choices_for_rule, execute_query, select,
    mbind, M_bind. cbn [store log]. fold db.
  case_bool_decide as Hlen; [by left|].
  unfold getitem.
  destruct (choice_map_of _ !! p) as [pid|] eqn:Hpid; [|by left].
  destruct (choice_map_of _ !! s) as [sid|] eqn:Hsid; [|by left].
  unfold insert_compatibility_rule, execute_query, insert_rule, raise, mret, M_ret.
  cbn [store log]. fold db.
  destruct (rule_accepted db rule_type pid sid) eqn:Hok; [|by left].
  right. exists d, rule_type, p, s, pid, sid.
  apply choice_map_of_Some in Hpid, Hsid.
  rewrite choices_for_rule_filter in Hpid, Hsid.
  apply list_elem_of_filter in Hpid as [_ Hpid], Hsid as [_ Hsid].
  repeat split; try done.
  - destruct (decide (rule_type = "REQUIRES")); [by left|].
    destruct (decide (rule_type = "INCOMPATIBLE_WITH")); [by right|]. naive_solver.
  - cbn [fst snd store log]. by rewrite <- app_assoc.
Qed.

(** X7.  A rule creation never touches templates, categories or choices,
    and is all or nothing on the rules: either the rule table is as it was
    and the response is not a 201, or exactly one rule was appended, of type
    REQUIRES or INCOMPATIBLE_WITH, whose two endpoints are choices of the
    named template with different string identifiers, and the response is
    the 201 with that rule's identifier. *)
Theorem rule_creation_all_or_nothing rule_accepted new_rule_id t data conn :
  let db := store conn in
  let run := create_compatibility_rule rule_accepted new_rule_id t data conn in
  ProductTemplates (store run.2) = ProductTemplates db
  ∧ OptionCategories (store run.2) = OptionCategories db
  ∧ OptionChoices (store run.2) = OptionChoices db
  ∧ ((CompatibilityRules (store run.2) = CompatibilityRules db
      ∧ ∀ rid, run.1 ≠ Returns (Response (JsonRuleAdded rid) 201))
     ∨ ∃ rule_type p s pid sid,
         run.1 = Returns (Response (JsonRuleAdded (new_rule_id db)) 201)
         ∧ CompatibilityRules (store run.2)
           = CompatibilityRules db ++ [mkRule (new_rule_id db) rule_type pid sid]
         ∧ (rule_type = "REQUIRES" ∨ rule_type = "INCOMPATIBLE_WITH")
         ∧ p ≠ s
         ∧ (pid, p) ∈ template_choices t db
         ∧ (sid, s) ∈ template_choices t db).
Proof.
  intros db run.
  destruct (create_compatibility_rule_cases rule_accepted new_rule_id t data conn)
    as [[Hstore Hno]|(d & rule_type & p & s & pid & sid & _ & _ & _ & _ & Hty & Hps
                       & Hp & Hs & _ & Hrun)];
    unfold run; fold db.
  - rewrite Hstore. repeat split; try done. by left.
  - rewrite Hrun. cbn [fst snd store]. repeat split; try done.
    right. by exists rule_type, p, s, pid, sid.
Qed.

Lemma template_choices_in_template t db u k :
  (u, k) ∈ template_choices t db →
  ∃ pt, pt ∈ ProductTemplates db ∧ pt_str_id pt = t
        ∧ choice_in_template db u (template_id pt).
Proof.
  rewrite elem_of_template_choices.
  intros (oc & cat & pt & Hoc & Hcat & Hpt & Hjoin & Hjoin' & Ht & [= -> ->]).
  exists pt. split; [done|]. split; [done|]. by exists oc, cat.
Qed.

(** X8.  Admission keeps rules inside templates: when template string
    identifiers are unique and every stored rule links two choices of one
    template, the same holds after any rule creation request. *)
Theorem rules_stay_within_templates rule_accepted new_rule_id t data conn :
  template_str_ids_unique (store conn) →
  rules_within_templates (store conn) →
  rules_within_templates
    (store (create_compatibility_rule rule_accepted new_rule_id t data conn).2).
Proof.
  intros Hunique Hrules.
  destruct (create_compatibility_rule_cases rule_accepted new_rule_id t data conn)
    as [[Hstore _]|(d & rule_type & p & s & pid & sid & _ & _ & _ & _ & _ & _
                    & Hp & Hs & _ & Hrun)].
  - by rewrite Hstore.
  - rewrite Hrun. cbn [snd store]. intros cr Hcr.
    unfold add_rule in Hcr. cbn [CompatibilityRules] in Hcr.
    apply elem_of_app in Hcr as [Hcr|Hcr]; [by apply Hrules|].
    apply list_elem_of_singleton in Hcr as ->. cbn [primary_choice_id secondary_choice_id].
    apply template_choices_in_template in Hp as (pt & Hpt & Ht & Hp).
    apply template_choices_in_template in Hs as (pt' & Hpt' & Ht' & Hs).
    exists (template_id pt). split; [done|].
    by rewrite (Hunique pt pt' Hpt Hpt') by congruence.
Qed.

Lemma rules_stay_within_templates_witness :
  rules_within_templates
    (store (create_compatibility_rule accept_all count_from_1000 "T1"
              (rule_request "REQUIRES" "red" "L") (connect (T1_with []))).2).
Proof.
  apply (rules_stay_within_templates accept_all count_from_1000 "T1"
           (rule_request "REQUIRES" "red" "L") (connect (T1_with []))).
  - intros pt pt' Hpt Hpt' _. cbn in Hpt, Hpt'.
    apply list_elem_of_singleton in Hpt as ->.
    by apply list_elem_of_singleton in Hpt' as ->.
  - intros cr Hcr. by apply elem_of_nil in Hcr.
Defined.

Lemma surviving_choices_not_incompatible db t c data u :
  u ∈ incompatible_uuids_of db (selected_uuids_of db data) →
  u ∉ choice_id <$> surviving_choices db t c data.
Proof.
  intros Hu. rewrite surviving_choices_filter, list_elem_of_fmap.
  intros (choice & -> & Hin). apply list_elem_of_filter in Hin as [[Hno _] _].
  by apply Hno.
Qed.

(** X10.  Creation then evaluation.  Once a request for [p INCOMPATIBLE_WITH s]
    has been answered 201, every later evaluation whose selection resolves
    to the choice taken for [p] returns no entry for the choice taken for
    [s], and the other way round, whatever the template and the category
    asked for. *)
Theorem created_incompatibility_is_enforced rule_accepted new_rule_id
    t (d : gmap string string) p s conn rid conn' :
  d !! "rule_type" = Some "INCOMPATIBLE_WITH" →
  d !! "primary_choice_str_id" = Some p →
  d !! "secondary_choice_str_id" = Some s →
  create_compatibility_rule rule_accepted new_rule_id t (Some d) conn
  = (Returns (Response (JsonRuleAdded rid) 201), conn') →
  ∃ pid sid,
    (pid, p) ∈ template_choices t (store conn)
    ∧ (sid, s) ∈ template_choices t (store conn)
    ∧ ∀ t' c data,
        let selected_uuids := selected_uuids_of (store conn') data in
        let returned := surviving_choices (store conn') t' c data in
        (pid ∈ selected_uuids ∨ sid ∈ selected_uuids →
           (get_available_options t' c data (connect (store conn'))).1
           = Returns (jsonify (option_entry <$> returned)))
        ∧ (pid ∈ selected_uuids → sid ∉ choice_id <$> returned)
        ∧ (sid ∈ selected_uuids → pid ∉ choice_id <$> returned).
Proof.
  intros Hty Hp Hs Hrun.
  destruct (create_compatibility_rule_cases rule_accepted new_rule_id t (Some d) conn)
    as [[_ Hno]|(d' & rule_type & p' & s' & pid & sid & [= <-] & Hty' & Hp' & Hs'
                 & _ & _ & Hpid & Hsid & _ & Hrun')].
  { exfalso. apply (Hno rid). by rewrite Hrun. }
  rewrite Hty in Hty'. rewrite Hp in Hp'. rewrite Hs in Hs'.
  injection Hty' as <-. injection Hp' as <-. injection Hs' as <-.
  rewrite Hrun in Hrun'. injection Hrun' as -> ->.
  exists pid, sid. split; [done|]. split; [done|].
  intros t' c data selected_uuids returned. cbn [store] in *.
  set (db' := add_rule (store conn)
                (mkRule (new_rule_id (store conn)) "INCOMPATIBLE_WITH" pid sid)) in *.
  assert (mkRule (new_rule_id (store conn)) "INCOMPATIBLE_WITH" pid sid
          ∈ CompatibilityRules db') as Hcr.
  { unfold db', add_rule. cbn [CompatibilityRules]. set_solver. }
  split; [|split].
  - intros Hsel. apply get_available_options_filtered. cbn [store connect].
    fold selected_uuids. intros Hnil. rewrite Hnil in Hsel. set_solver.
  - intros Hin. apply surviving_choices_not_incompatible.
    apply elem_of_incompatible_uuids_of. eexists. split; [exact Hcr|].
    split; [done|]. right. by split.
  - intros Hin. apply surviving_choices_not_incompatible.
    apply elem_of_incompatible_uuids_of. eexists. split; [exact Hcr|].
    split; [done|]. left. by split.
Qed.

Lemma created_incompatibility_is_enforced_witness :
  ∃ pid sid,
    (pid, "red") ∈ template_choices "T1" (T1_with [])
    ∧ (sid, "L") ∈ template_choices "T1" (T1_with [])
    ∧ (pid ∈ selected_uuids_of (T1_with [mkRule 1000 "INCOMPATIBLE_WITH" 100 111])
               (selecting "COLOR" "red") →
       sid ∉ choice_id <$>
               surviving_choices (T1_with [mkRule 1000 "INCOMPATIBLE_WITH" 100 111])
                 "T1" "SIZE" (selecting "COLOR" "red")).
Proof.
  destruct (created_incompatibility_is_enforced accept_all count_from_1000 "T1"
              {[ "rule_type" := "INCOMPATIBLE_WITH"; "primary_choice_str_id" := "red";
                 "secondary_choice_str_id" := "L" ]}
              "red" "L" (connect (T1_with [])) 1000
              {| store := T1_with [mkRule 1000 "INCOMPATIBLE_WITH" 100 111];
                 log := [Execute (SelectChoicesForRule "T1" "red" "L"); Commit;
                         Execute (InsertCompatibilityRule "INCOMPATIBLE_WITH" 100 111);
                         Commit] |})
    as (pid & sid & Hpid & Hsid & Hlater); [by vm_compute..|].
  exists pid, sid. split; [done|]. split; [done|].
  apply (Hlater "T1" "SIZE" (selecting "COLOR" "red")).
Defined.

(** X11.  Creation then evaluation.  Once a request for [p REQUIRES s] has been
    answered 201, every later evaluation of the category of the choice taken
    for [s], with the choice taken for [p] selected, is a whitelist: that
    choice is in the required set, and every returned choice is the
    secondary choice of a REQUIRES rule of a selected choice. *)
Theorem created_requirement_is_enforced rule_accepted new_rule_id
    t (d : gmap string string) p s conn rid conn' :
  d !! "rule_type" = Some "REQUIRES" →
  d !! "primary_choice_str_id" = Some p →
  d !! "secondary_choice_str_id" = Some s →
  create_compatibility_rule rule_accepted new_rule_id t (Some d) conn
  = (Returns (Response (JsonRuleAdded rid) 201), conn') →
  ∃ pid sid,
    (pid, p) ∈ template_choices t (store conn)
    ∧ (sid, s) ∈ template_choices t (store conn)
    ∧ ∀ t' c data first_choice rest oc,
        let db' := store conn' in
        let selected_uuids := selected_uuids_of db' data in
        let returned := surviving_choices db' t' c data in
        target_choices_of t' c db' = first_choice :: rest →
        pid ∈ selected_uuids →
        oc ∈ OptionChoices db' → choice_id oc = sid →
        oc_category_id oc = oc_category_id first_choice →
        (get_available_options t' c data (connect db')).1
        = Returns (jsonify (option_entry <$> returned))
        ∧ sid ∈ required_in_target_category_of db' selected_uuids (first_choice :: rest)
        ∧ ∀ choice, choice ∈ returned →
            ∃ cr, cr ∈ CompatibilityRules db' ∧ rule_type cr = "REQUIRES"
                  ∧ primary_choice_id cr ∈ selected_uuids
                  ∧ secondary_choice_id cr = choice_id choice.
Proof.
  intros Hty Hp Hs Hrun.
  destruct (create_compatibility_rule_cases rule_accepted new_rule_id t (Some d) conn)
    as [[_ Hno]|(d' & rule_type & p' & s' & pid & sid & [= <-] & Hty' & Hp' & Hs'
                 & _ & _ & Hpid & Hsid & _ & Hrun')].
  { exfalso. apply (Hno rid). by rewrite Hrun. }
  rewrite Hty in Hty'. rewrite Hp in Hp'. rewrite Hs in Hs'.
  injection Hty' as <-. injection Hp' as <-. injection Hs' as <-.
  rewrite Hrun in Hrun'. injection Hrun' as -> ->.
  exists pid, sid. split; [done|]. split; [done|].
  intros t' c data first_choice rest oc db' selected_uuids returned
    Htc Hsel Hoc Hid Hcat.
  assert (sid ∈ required_in_target_category_of db' selected_uuids (first_choice :: rest))
    as Hreq.
  { cbn [required_in_target_category_of].
    apply elem_of_required_in_category, elem_of_required_choices_of.
    exists (mkRule (new_rule_id (store conn)) "REQUIRES" pid sid), oc.
    repeat split; try done.
    - unfold db'. cbn [store add_rule CompatibilityRules]. set_solver.
    - by rewrite Hcat. }
  split; [|split; [done|]].
  - apply get_available_options_filtered. cbn [store connect].
    fold db' selected_uuids. intros Hnil. rewrite Hnil in Hsel. set_solver.
  - intros choice Hin. unfold returned in Hin.
    rewrite surviving_choices_filter, Htc in Hin. fold selected_uuids in Hin.
    apply list_elem_of_filter in Hin as [[_ [Hempty|Hin]] _].
    { rewrite Hempty in Hreq. set_solver. }
    cbn [required_in_target_category_of] in Hin.
    apply elem_of_required_in_category, elem_of_required_choices_of in Hin
      as (cr & oc' & Hcr & _ & _ & Hty' & Hp' & [= Hsec _]).
    by exists cr.
Qed.

Lemma created_requirement_is_enforced_witness :
  (get_available_options "T1" "SIZE" (selecting "COLOR" "red")
     (connect (T1_with [mkRule 1000 "REQUIRES" 100 111]))).1
  = Returns (jsonify (option_entry <$>
               surviving_choices (T1_with [mkRule 1000 "REQUIRES" 100 111])
                 "T1" "SIZE" (selecting "COLOR" "red"))).
Proof.
  destruct (created_requirement_is_enforced accept_all count_from_1000 "T1"
              {[ "rule_type" := "REQUIRES"; "primary_choice_str_id" := "red";
                 "secondary_choice_str_id" := "L" ]}
              "red" "L" (connect (T1_with [])) 1000
              {| store := T1_with [mkRule 1000 "REQUIRES" 100 111];
                 log := [Execute (SelectChoicesForRule "T1" "red" "L"); Commit;
                         Execute (InsertCompatibilityRule "REQUIRES" 100 111);
                         Commit] |})
    as (pid & sid & Hpid & Hsid & Hlater); [by vm_compute..|].
  assert (template_choices "T1" (T1_with [])
          = [(100%N, "red"); (101%N, "blue"); (110%N, "S"); (111%N, "L")]) as Hrows
    by by vm_compute.
  cbn [store connect] in Hpid, Hsid.
  rewrite Hrows, !elem_of_cons, elem_of_nil in Hpid, Hsid.
  assert (pid = 100%N) as -> by naive_solver.
  assert (sid = 111%N) as -> by naive_solver.
  apply (Hlater "T1" "SIZE" (selecting "COLOR" "red")
           (mkChoice 110 11 "S" "Small" d0)
           [mkChoice 111 11 "L" "Large" (Decimal 250 2)]
           (mkChoice 111 11 "L" "Large" (Decimal 250 2))).
  - by vm_compute.
  - compute_done.
  - compute_done.
  - done.
  - done.
Defined.

(** * The catalogue endpoints *)


(** *** How each creation ends *)

Lemma create_product_template_run sch (d : gmap string pyvalue) str_id name base_price conn :
  d !! "template_str_id" = Some str_id →
  d !! "name" = Some name →
  d !! "base_price" = Some base_price →
  Catalog.create_product_template sch (Some d) conn
  = let db := Catalog.store conn in
    let row := Catalog.template_row sch db str_id name base_price in
    if Catalog.template_accepted sch db str_id name base_price then
      (Returns (Catalog.Reply
                  (Catalog.ReplyObject
                     {[ "template_id" := PyUuid (template_id row);
                        "template_str_id" := PyStr (pt_str_id row) ]}) 201),
       {| Catalog.store := Catalog.add_template db row;
          Catalog.log :=
            Catalog.log conn
            ++ [Catalog.Execute (Catalog.InsertProductTemplate str_id name base_price);
                Catalog.Commit] |})
    else
      (Returns (Catalog.Reply Catalog.ReplyDatabaseError 409),
       {| Catalog.store := db;
          Catalog.log :=
            Catalog.log conn
            ++ [Catalog.Execute (Catalog.InsertProductTemplate str_id name base_price);
                Catalog.Rollback] |}).
Proof.
  intros Hs Hn Hb. unfold Catalog.create_product_template. rewrite Hs, Hn, Hb.
  unfold Catalog.except_psycopg2, Catalog.insert_product_template,
    Catalog.execute_query, mbind, Catalog.M_bind, mret, Catalog.M_ret.
  cbn zeta. by destruct (Catalog.template_accepted sch _ _ _ _).
Qed.

Lemma create_option_category_run sch t (d : gmap string pyvalue) str_id name conn :
  d !! "category_str_id" = Some str_id →
  d !! "name" = Some name →
  Catalog.create_option_category sch t (Some d) conn
  = let db := Catalog.store conn in
    let lookup := [Catalog.Execute (Catalog.SelectTemplateId t); Catalog.Commit] in
    match head (template_id <$> filter (λ pt, pt_str_id pt = t) (ProductTemplates db)) with
    | None =>
      (Returns (Catalog.Reply
                  (Catalog.ReplyError
                     ("Product template with id '" +:+ t +:+ "' not found.")) 404),
       {| Catalog.store := db; Catalog.log := Catalog.log conn ++ lookup |})
    | Some tid =>
      let row := Catalog.category_row sch db tid str_id name in
      if Catalog.category_accepted sch db tid str_id name then
        (Returns (Catalog.Reply
                    (Catalog.ReplyObject
                       {[ "category_id" := PyUuid (category_id row);
                          "category_str_id" := PyStr (cat_str_id row) ]}) 201),
         {| Catalog.store := Catalog.add_category db row;
            Catalog.log :=
              Catalog.log conn ++ lookup
              ++ [Catalog.Execute (Catalog.InsertOptionCategory tid str_id name);
                  Catalog.Commit] |})
      else
        (Returns (Catalog.Reply Catalog.ReplyDatabaseError 409),
         {| Catalog.store := db;
            Catalog.log :=
              Catalog.log conn ++ lookup
              ++ [Catalog.Execute (Catalog.InsertOptionCategory tid str_id name);
                  Catalog.Rollback] |})
    end.
Proof.
  intros Hs Hn. unfold Catalog.create_option_category. rewrite Hs, Hn.
  unfold Catalog.except_psycopg2, Catalog.find_template_id_by_str_id,
    Catalog.insert_option_category, Catalog.execute_query, Catalog.select,
    mbind, Catalog.M_bind, mret, Catalog.M_ret.
  cbn zeta. cbn [Catalog.store Catalog.log].
  destruct (head _) as [tid|]; [|done].
  cbn [Catalog.store Catalog.log].
  destruct (Catalog.category_accepted sch _ _ _ _); cbn [Catalog.store Catalog.log];
    by rewrite <- app_assoc.
Qed.

Lemma create_option_choice_run sch c (d : gmap string pyvalue) str_id name price conn :
  d !! "choice_str_id" = Some str_id →
  d !! "name" = Some name →
  d !! "price_delta" = Some price →
  Catalog.create_option_choice sch c (Some d) conn
  = let db := Catalog.store conn in
    let lookup := [Catalog.Execute (Catalog.SelectCategoryId c); Catalog.Commit] in
    match head (category_id <$> filter (λ cat, cat_str_id cat = c) (OptionCategories db)) with
    | None =>
      (Returns (Catalog.Reply
                  (Catalog.ReplyError
                     ("Option category with id '" +:+ c +:+ "' not found.")) 404),
       {| Catalog.store := db; Catalog.log := Catalog.log conn ++ lookup |})
    | Some cid =>
      let row := Catalog.choice_row sch db cid str_id name price in
      if Catalog.choice_accepted sch db cid str_id name price then
        (Returns (Catalog.Reply
                    (Catalog.ReplyObject
                       {[ "choice_id" := PyUuid (choice_id row);
                          "choice_str_id" := PyStr (oc_str_id row) ]}) 201),
         {| Catalog.store := Catalog.add_choice db row;
            Catalog.log :=
              Catalog.log conn ++ lookup
              ++ [Catalog.Execute (Catalog.InsertOptionChoice cid str_id name price);
                  Catalog.Commit] |})
      else
        (Returns (Catalog.Reply Catalog.ReplyDatabaseError 409),
         {| Catalog.store := db;
            Catalog.log :=
              Catalog.log conn ++ lookup
              ++ [Catalog.Execute (Catalog.InsertOptionChoice cid str_id name price);
                  Catalog.Rollback] |})
    end.
Proof.
  intros Hs Hn Hp. unfold Catalog.create_option_choice. rewrite Hs, Hn, Hp.
  unfold Catalog.except_psycopg2, Catalog.find_category_id_by_str_id,
    Catalog.insert_option_choice, Catalog.execute_query, Catalog.select,
    mbind, Catalog.M_bind, mret, Catalog.M_ret.
  cbn zeta. cbn [Catalog.store Catalog.log].
  destruct (head _) as [cid|]; [|done].
  cbn [Catalog.store Catalog.log].
  destruct (Catalog.choice_accepted sch _ _ _ _ _); cbn [Catalog.store Catalog.log];
    by rewrite <- app_assoc.
Qed.

(** X12.  A creation request that lacks a field is answered 400 and the
    connection is left as it was: nothing was executed. *)
Theorem missing_field_rejected_before_storage sch data conn :
  (lacks data ["template_str_id"; "name"; "base_price"] →
     ∃ error, Catalog.create_product_template sch data conn
              = (Returns (Catalog.Reply (Catalog.ReplyError error) 400), conn))
  ∧ (∀ t, lacks data ["category_str_id"; "name"] →
       ∃ error, Catalog.create_option_category sch t data conn
                = (Returns (Catalog.Reply (Catalog.ReplyError error) 400), conn))
  ∧ (∀ c, lacks data ["choice_str_id"; "name"; "price_delta"] →
       ∃ error, Catalog.create_option_choice sch c data conn
                = (Returns (Catalog.Reply (Catalog.ReplyError error) 400), conn)).
Proof.
  split; [|split]; [|intros t|intros c]; intros Hlacks;
    destruct data as [d|]; try (by eexists);
    destruct Hlacks as (field & Hin & Hnone);
    repeat (apply elem_of_cons in Hin as [->|Hin]);
    try (by apply elem_of_nil in Hin).
  all: unfold Catalog.create_product_template, Catalog.create_option_category,
         Catalog.create_option_choice; rewrite Hnone.
  all: repeat case_match; by eexists.
Qed.

Lemma missing_field_rejected_before_storage_witness :
  ∃ error,
    Catalog.create_option_choice plain_schema "SIZE" (Some {[ "choice_str_id" := PyStr "XL"; "name" := PyStr "Extra" ]})
      (Catalog.connect wardrobe)
    = (Returns (Catalog.Reply (Catalog.ReplyError error) 400), Catalog.connect wardrobe).
Proof.
  apply missing_field_rejected_before_storage.
  exists "price_delta". split; [compute_done|by vm_compute].
Defined.

(** X13.  Creating under a parent that is not stored is answered 404 after the
    one committed lookup; no insert is attempted and the store is as it
    was.  The category lookup of a choice creation is by category string
    identifier alone. *)
Theorem unknown_parent_not_found sch (d : gmap string pyvalue) conn :
  (∀ t str_id name,
     d !! "category_str_id" = Some str_id → d !! "name" = Some name →
     (∀ pt, pt ∈ ProductTemplates (Catalog.store conn) → pt_str_id pt ≠ t) →
     Catalog.create_option_category sch t (Some d) conn
     = (Returns (Catalog.Reply
                   (Catalog.ReplyError
                      ("Product template with id '" +:+ t +:+ "' not found.")) 404),
        {| Catalog.store := Catalog.store conn;
           Catalog.log :=
             Catalog.log conn
             ++ [Catalog.Execute (Catalog.SelectTemplateId t); Catalog.Commit] |}))
  ∧ (∀ c str_id name price,
       d !! "choice_str_id" = Some str_id → d !! "name" = Some name →
       d !! "price_delta" = Some price →
       (∀ cat, cat ∈ OptionCategories (Catalog.store conn) → cat_str_id cat ≠ c) →
       Catalog.create_option_choice sch c (Some d) conn
       = (Returns (Catalog.Reply
                     (Catalog.ReplyError
                        ("Option category with id '" +:+ c +:+ "' not found.")) 404),
          {| Catalog.store := Catalog.store conn;
             Catalog.log :=
               Catalog.log conn
               ++ [Catalog.Execute (Catalog.SelectCategoryId c); Catalog.Commit] |})).
Proof.
  split.
  - intros t str_id name Hs Hn Hnone.
    rewrite (create_option_category_run sch t d str_id name) by done. cbn zeta.
    replace (filter _ _) with (@nil ProductTemplate); [done|].
    symmetry. apply elem_of_nil_inv. intros pt [Ht Hpt]%list_elem_of_filter.
    by apply (Hnone pt).
  - intros c str_id name price Hs Hn Hp Hnone.
    rewrite (create_option_choice_run sch c d str_id name price) by done. cbn zeta.
    replace (filter _ _) with (@nil OptionCategory); [done|].
    symmetry. apply elem_of_nil_inv. intros cat [Hc Hcat]%list_elem_of_filter.
    by apply (Hnone cat).
Qed.

Lemma unknown_parent_not_found_witness :
  (Catalog.create_option_choice plain_schema "WEIGHT"
     (Some {[ "choice_str_id" := PyStr "heavy"; "name" := PyStr "Heavy";
              "price_delta" := PyFloat (Decimal 100 2) ]})
     (Catalog.connect wardrobe)).1
  = Returns (Catalog.Reply
               (Catalog.ReplyError "Option category with id 'WEIGHT' not found.") 404).
Proof.
  destruct (unknown_parent_not_found plain_schema
              {[ "choice_str_id" := PyStr "heavy"; "name" := PyStr "Heavy";
                 "price_delta" := PyFloat (Decimal 100 2) ]}
              (Catalog.connect wardrobe)) as [_ Hchoice].
  rewrite (Hchoice "WEIGHT" (PyStr "heavy") (PyStr "Heavy") (PyFloat (Decimal 100 2)));
    [done|by vm_compute..|].
  intros cat Hcat. cbn in Hcat. enumerate Hcat; done.
Defined.

Lemma head_fmap_filter_Some {A B} (f : A → B) (P : A → Prop) `{∀ x, Decision (P x)}
    (l : list A) y :
  head (f <$> filter P l) = Some y →
  ∃ x, head (filter P l) = Some x ∧ x ∈ l ∧ P x ∧ y = f x.
Proof.
  destruct (filter P l) as [|x rest] eqn:Hfilter; [done|].
  cbn. intros [= <-]. exists x. split; [done|].
  assert (x ∈ filter P l) as Hin by (rewrite Hfilter; left).
  apply list_elem_of_filter in Hin as [HP Hin]. done.
Qed.

(** X14.  A template creation is all or nothing and touches the template table
    only: either the store is as it was and the reply is not a 201, or one
    row was appended to the templates and the 201 carries its identifier
    and the string identifier it was stored under. *)
Theorem template_creation_all_or_nothing sch data conn :
  let db := Catalog.store conn in
  let run := Catalog.create_product_template sch data conn in
  (Catalog.store run.2 = db
   ∧ ∀ fields, run.1 ≠ Returns (Catalog.Reply (Catalog.ReplyObject fields) 201))
  ∨ ∃ row,
      Catalog.store run.2 = Catalog.add_template db row
      ∧ template_id row = Catalog.new_template_id sch db
      ∧ run.1 = Returns (Catalog.Reply
                           (Catalog.ReplyObject
                              {[ "template_id" := PyUuid (template_id row);
                                 "template_str_id" := PyStr (pt_str_id row) ]}) 201).
Proof.
  intros db run. unfold run.
  destruct data as [d|]; [|by left].
  destruct (d !! "template_str_id") as [str_id|] eqn:Hs;
    [|left; unfold Catalog.create_product_template; by rewrite Hs].
  destruct (d !! "name") as [name|] eqn:Hn;
    [|left; unfold Catalog.create_product_template; by rewrite Hs, Hn].
  destruct (d !! "base_price") as [price|] eqn:Hp;
    [|left; unfold Catalog.create_product_template; by rewrite Hs, Hn, Hp].
  rewrite (create_product_template_run sch d str_id name price) by done.
  cbn zeta. fold db.
  destruct (Catalog.template_accepted sch db str_id name price); [|by left].
  right. by eexists.
Qed.

(** X15.  A category creation is all or nothing and touches the category table
    only; the appended category belongs to the first stored template with
    the string identifier of the URL. *)
Theorem category_creation_all_or_nothing sch t data conn :
  let db := Catalog.store conn in
  let run := Catalog.create_option_category sch t data conn in
  (Catalog.store run.2 = db
   ∧ ∀ fields, run.1 ≠ Returns (Catalog.Reply (Catalog.ReplyObject fields) 201))
  ∨ ∃ row pt,
      Catalog.store run.2 = Catalog.add_category db row
      ∧ head (filter (λ pt, pt_str_id pt = t) (ProductTemplates db)) = Some pt
      ∧ cat_template_id row = template_id pt
      ∧ category_id row = Catalog.new_category_id sch db
      ∧ run.1 = Returns (Catalog.Reply
                           (Catalog.ReplyObject
                              {[ "category_id" := PyUuid (category_id row);
                                 "category_str_id" := PyStr (cat_str_id row) ]}) 201).
Proof.
  intros db run. unfold run.
  destruct data as [d|]; [|by left].
  destruct (d !! "category_str_id") as [str_id|] eqn:Hs;
    [|left; unfold Catalog.create_option_category; by rewrite Hs].
  destruct (d !! "name") as [name|] eqn:Hn;
    [|left; unfold Catalog.create_option_category; by rewrite Hs, Hn].
  rewrite (create_option_category_run sch t d str_id name) by done.
  cbn zeta. fold db.
  destruct (head (template_id <$> _)) as [tid|] eqn:Hhead; [|by left].
  apply head_fmap_filter_Some in Hhead as (pt & Hpt & _ & _ & ->).
  destruct (Catalog.category_accepted sch db _ str_id name); [|by left].
  right. eexists _, pt. by repeat split.
Qed.

(** X16.  A choice creation is all or nothing and touches the choice table only;
    the appended choice belongs to the first stored category with the string
    identifier of the URL, whichever template that category is in. *)
Theorem choice_creation_all_or_nothing sch c data conn :
  let db := Catalog.store conn in
  let run := Catalog.create_option_choice sch c data conn in
  (Catalog.store run.2 = db
   ∧ ∀ fields, run.1 ≠ Returns (Catalog.Reply (Catalog.ReplyObject fields) 201))
  ∨ ∃ row cat,
      Catalog.store run.2 = Catalog.add_choice db row
      ∧ head (filter (λ cat, cat_str_id cat = c) (OptionCategories db)) = Some cat
      ∧ oc_category_id row = category_id cat
      ∧ choice_id row = Catalog.new_choice_id sch db
      ∧ run.1 = Returns (Catalog.Reply
                           (Catalog.ReplyObject
                              {[ "choice_id" := PyUuid (choice_id row);
                                 "choice_str_id" := PyStr (oc_str_id row) ]}) 201).
Proof.
  intros db run. unfold run.
  destruct data as [d|]; [|by left].
  destruct (d !! "choice_str_id") as [str_id|] eqn:Hs;
    [|left; unfold Catalog.create_option_choice; by rewrite Hs].
  destruct (d !! "name") as [name|] eqn:Hn;
    [|left; unfold Catalog.create_option_choice; by rewrite Hs, Hn].
  destruct (d !! "price_delta") as [price|] eqn:Hp;
    [|left; unfold Catalog.create_option_choice; by rewrite Hs, Hn, Hp].
  rewrite (create_option_choice_run sch c d str_id name price) by done.
  cbn zeta. fold db.
  destruct (head (category_id <$> _)) as [cid|] eqn:Hhead; [|by left].
  apply head_fmap_filter_Some in Hhead as (cat & Hcat & _ & _ & ->).
  destruct (Catalog.choice_accepted sch db _ str_id name price); [|by left].
  right. eexists _, cat. by repeat split.
Qed.

(** *** Creation, then use *)

Lemma create_option_choice_created sch c (d : gmap string pyvalue) conn fields conn' :
  Catalog.create_option_choice sch c (Some d) conn
  = (Returns (Catalog.Reply (Catalog.ReplyObject fields) 201), conn') →
  ∃ str_id name price cat,
    head (filter (λ cat, cat_str_id cat = c) (OptionCategories (Catalog.store conn)))
    = Some cat
    ∧ let row := Catalog.choice_row sch (Catalog.store conn) (category_id cat)
                   str_id name price in
      Catalog.store conn' = Catalog.add_choice (Catalog.store conn) row
      ∧ fields = {[ "choice_id" := PyUuid (choice_id row);
                    "choice_str_id" := PyStr (oc_str_id row) ]}.
Proof.
  intros Hrun.
  destruct (d !! "choice_str_id") as [str_id|] eqn:Hs;
    [|unfold Catalog.create_option_choice in Hrun; by rewrite Hs in Hrun].
  destruct (d !! "name") as [name|] eqn:Hn;
    [|unfold Catalog.create_option_choice in Hrun; by rewrite Hs, Hn in Hrun].
  destruct (d !! "price_delta") as [price|] eqn:Hp;
    [|unfold Catalog.create_option_choice in Hrun; by rewrite Hs, Hn, Hp in Hrun].
  rewrite (create_option_choice_run sch c d str_id name price) in Hrun by done.
  cbn zeta in Hrun.
  destruct (head (category_id <$> _)) as [cid|] eqn:Hhead; [|done].
  apply head_fmap_filter_Some in Hhead as (cat & Hcat & _ & _ & ->).
  destruct (Catalog.choice_accepted sch _ _ str_id name price); [|done].
  injection Hrun as <- <-. by exists str_id, name, price, cat.
Qed.

(** X17.  A choice just created is offered.  After a 201 from a choice creation
    under the category string identifier [c], when the first stored category
    called [c] belongs to a template called [t], the new choice is among the
    target choices of [t] and [c], and an evaluation without selection
    returns its row. *)
Theorem created_choice_is_offered sch c (d : gmap string pyvalue) conn fields conn'
    t cat pt :
  let db := Catalog.store conn in
  Catalog.create_option_choice sch c (Some d) conn
  = (Returns (Catalog.Reply (Catalog.ReplyObject fields) 201), conn') →
  head (filter (λ cat, cat_str_id cat = c) (OptionCategories db)) = Some cat →
  pt ∈ ProductTemplates db →
  cat_template_id cat = template_id pt →
  pt_str_id pt = t →
  ∃ row,
    fields = {[ "choice_id" := PyUuid (choice_id row);
                "choice_str_id" := PyStr (oc_str_id row) ]}
    ∧ Catalog.store conn' = Catalog.add_choice db row
    ∧ row ∈ target_choices_of t c (Catalog.store conn')
    ∧ ∃ entries,
        (get_available_options t c None (connect (Catalog.store conn'))).1
        = Returns (jsonify entries)
        ∧ dict_of_row row ∈ entries.
Proof.
  intros db Hrun Hcat Hpt Hjoin Ht.
  apply create_option_choice_created
    in Hrun as (str_id & name & price & cat' & Hcat' & Hstore & Hfields).
  fold db in Hcat'. rewrite Hcat in Hcat'. injection Hcat' as <-.
  eexists. split; [exact Hfields|]. split; [exact Hstore|].
  assert (cat ∈ filter (λ cat, cat_str_id cat = c) (OptionCategories db)) as Hin.
  { destruct (filter _ (OptionCategories db)); [done|].
    injection Hcat as ->. left. }
  apply list_elem_of_filter in Hin as [Hc Hin].
  match goal with |- ?row ∈ _ ∧ _ => assert (row ∈ target_choices_of t c (Catalog.store conn')) as Hrow end.
  { rewrite Hstore. apply elem_of_target_choices_of.
    unfold Catalog.add_choice.
    cbn [OptionChoices OptionCategories ProductTemplates]. split.
    - apply elem_of_app. right. by apply list_elem_of_singleton.
    - by exists cat, pt. }
  split; [done|].
  rewrite get_available_options_run. cbn zeta. cbn [store connect].
  rewrite bool_decide_eq_false_2 by (intros Hnil; rewrite Hnil in Hrow; set_solver).
  rewrite bool_decide_eq_true_2 by done.
  eexists. split; [done|]. by apply list_elem_of_fmap_2.
Qed.

Lemma created_choice_is_offered_witness :
  mkChoice 107 11 "XL" "Extra large" (Decimal 400 2)
  ∈ target_choices_of "T1" "SIZE"
      (Catalog.add_choice wardrobe (mkChoice 107 11 "XL" "Extra large" (Decimal 400 2))).
Proof.
  destruct (created_choice_is_offered plain_schema "SIZE"
              {[ "choice_str_id" := PyStr "XL"; "name" := PyStr "Extra large";
                 "price_delta" := PyFloat (Decimal 400 2) ]}
              (Catalog.connect wardrobe)
              {[ "choice_id" := PyUuid 107; "choice_str_id" := PyStr "XL" ]}
              {| Catalog.store :=
                   Catalog.add_choice wardrobe
                     (mkChoice 107 11 "XL" "Extra large" (Decimal 400 2));
                 Catalog.log :=
                   [Catalog.Execute (Catalog.SelectCategoryId "SIZE"); Catalog.Commit;
                    Catalog.Execute
                      (Catalog.InsertOptionChoice 11 (PyStr "XL") (PyStr "Extra large")
                         (PyFloat (Decimal 400 2)));
                    Catalog.Commit] |}
              "T1" (mkCategory 11 1 "SIZE" "Size")
              (mkTemplate 1 "T1" "Coat" (Decimal 9900 2)))
    as (row & Hfields & Hstore & Hrow & _).
  - by vm_compute.
  - by vm_compute.
  - compute_done.
  - done.
  - done.
  - cbn [Catalog.store] in Hstore, Hrow.
    assert (row = mkChoice 107 11 "XL" "Extra large" (Decimal 400 2)) as ->; [|done].
    unfold Catalog.add_choice in Hstore. by injection Hstore as <-.
Defined.

(** *** Looking a rule up *)

Lemma elem_of_compatibility_rule_rows rid db row :
  row ∈ Catalog.compatibility_rule_rows rid db ↔
  ∃ cr pc sc, cr ∈ CompatibilityRules db ∧ pc ∈ OptionChoices db ∧ sc ∈ OptionChoices db
      ∧ primary_choice_id cr = choice_id pc
      ∧ secondary_choice_id cr = choice_id sc
      ∧ rule_id cr = rid
      ∧ row = Catalog.RuleRow (rule_id cr) (rule_type cr) (oc_str_id pc) (oc_str_id sc).
Proof.
  unfold Catalog.compatibility_rule_rows. unfold_query. split.
  - intros (cr & (pc & (sc & [Hid ->] & Hs & Hsc) & Hp & Hpc) & Hcr).
    by exists cr, pc, sc.
  - intros (cr & pc & sc & Hcr & Hpc & Hsc & Hp & Hs & Hid & ->).
    exists cr. split; [|done]. exists pc. split; [|done]. by exists sc.
Qed.

Lemma get_compatibility_rule_run rid conn :
  Catalog.get_compatibility_rule rid conn
  = (Returns
       match head (Catalog.compatibility_rule_rows rid (Catalog.store conn)) with
       | None => Catalog.Reply (Catalog.ReplyError "Compatibility rule not found.") 404
       | Some rule => Catalog.Reply (Catalog.ReplyObject (Catalog.dict_of_rule rule)) 200
       end,
     {| Catalog.store := Catalog.store conn;
        Catalog.log :=
          Catalog.log conn
          ++ [Catalog.Execute (Catalog.SelectCompatibilityRule rid); Catalog.Commit] |}).
Proof.
  unfold Catalog.get_compatibility_rule, Catalog.except_psycopg2,
    Catalog.find_compatibility_rule_by_id, Catalog.execute_query, Catalog.select,
    mbind, Catalog.M_bind, mret, Catalog.M_ret.
  cbn [Catalog.store Catalog.log]. by destruct (head _).
Qed.

(** X18.  A rule lookup answers 200 with the type of a stored rule that has this
    identifier and the string identifiers of two stored choices its
    endpoints name, or 404 when there is no such rule; a rule one of whose
    endpoints names no stored choice is reported as not found.  The store is
    left as it was. *)
Theorem rule_lookup_found_or_not rid conn :
  let db := Catalog.store conn in
  let run := Catalog.get_compatibility_rule rid conn in
  Catalog.store run.2 = db
  ∧ ((run.1 = Returns (Catalog.Reply
                         (Catalog.ReplyError "Compatibility rule not found.") 404)
      ∧ ∀ cr pc sc, cr ∈ CompatibilityRules db → rule_id cr = rid →
          pc ∈ OptionChoices db → sc ∈ OptionChoices db →
          ¬ (primary_choice_id cr = choice_id pc ∧ secondary_choice_id cr = choice_id sc))
     ∨ ∃ cr pc sc,
         cr ∈ CompatibilityRules db ∧ rule_id cr = rid
         ∧ pc ∈ OptionChoices db ∧ primary_choice_id cr = choice_id pc
         ∧ sc ∈ OptionChoices db ∧ secondary_choice_id cr = choice_id sc
         ∧ run.1 = Returns (Catalog.Reply
                              (Catalog.ReplyObject
                                 {[ "rule_id" := PyUuid rid;
                                    "rule_type" := PyStr (rule_type cr);
                                    "primary_choice_str_id" := PyStr (oc_str_id pc);
                                    "secondary_choice_str_id" := PyStr (oc_str_id sc) ]})
                              200)).
Proof.
  intros db run. unfold run. rewrite get_compatibility_rule_run. cbn [fst snd Catalog.store].
  split; [done|]. fold db.
  destruct (Catalog.compatibility_rule_rows rid db) as [|row rows] eqn:Hrows.
  - left. split; [done|]. intros cr pc sc Hcr Hid Hpc Hsc [Hp Hs].
    assert (Catalog.RuleRow (rule_id cr) (rule_type cr) (oc_str_id pc) (oc_str_id sc)
            ∈ Catalog.compatibility_rule_rows rid db) as Hin.
    { apply elem_of_compatibility_rule_rows. by exists cr, pc, sc. }
    rewrite Hrows in Hin. by apply elem_of_nil in Hin.
  - right. assert (row ∈ Catalog.compatibility_rule_rows rid db) as Hin
      by (rewrite Hrows; left).
    apply elem_of_compatibility_rule_rows
      in Hin as (cr & pc & sc & Hcr & Hpc & Hsc & Hp & Hs & Hid & ->).
    exists cr, pc, sc. repeat split; try done. cbn [head]. by rewrite Hid.
Qed.

Lemma head_bind_cons {A B} (f : A → list B) x l y rest :
  f x = y :: rest → head ((x :: l) ≫= f) = Some y.
Proof. intros Hfx. by rewrite bind_cons, Hfx. Qed.

Lemma filter_head_elem {A} (P : A → Prop) `{∀ x, Decision (P x)} (l : list A) x :
  x ∈ l → P x → ∃ y rest, filter P l = y :: rest ∧ P y ∧ y ∈ l.
Proof.
  intros Hin HP.
  assert (x ∈ filter P l) as Hx by by apply list_elem_of_filter.
  destruct (filter P l) as [|y rest] eqn:Hfilter; [by apply elem_of_nil in Hx|].
  exists y, rest. split; [done|].
  assert (y ∈ filter P l) as Hy by (rewrite Hfilter; left).
  by apply list_elem_of_filter in Hy.
Qed.

(** X19.  A rule just created can be read back.  After a 201 from a rule
    creation with identifier [rid], when no stored rule had that identifier
    and choices with the same identifier carry the same string identifier,
    looking [rid] up answers 200 with the requested type and the two
    requested choice string identifiers. *)
Theorem created_rule_is_read_back rule_accepted new_rule_id
    t (d : gmap string string) requested_type p s conn rid conn' :
  let db := store conn in
  d !! "rule_type" = Some requested_type →
  d !! "primary_choice_str_id" = Some p →
  d !! "secondary_choice_str_id" = Some s →
  create_compatibility_rule rule_accepted new_rule_id t (Some d) conn
  = (Returns (Response (JsonRuleAdded rid) 201), conn') →
  (∀ cr, cr ∈ CompatibilityRules db → rule_id cr ≠ rid) →
  (∀ oc oc', oc ∈ OptionChoices db → oc' ∈ OptionChoices db →
     choice_id oc = choice_id oc' → oc_str_id oc = oc_str_id oc') →
  (Catalog.get_compatibility_rule rid (Catalog.connect (store conn'))).1
  = Returns (Catalog.Reply
               (Catalog.ReplyObject
                  {[ "rule_id" := PyUuid rid;
                     "rule_type" := PyStr requested_type;
                     "primary_choice_str_id" := PyStr p;
                     "secondary_choice_str_id" := PyStr s ]}) 200).
Proof.
  intros db Hty Hp Hs Hrun Hfresh Hkey.
  destruct (create_compatibility_rule_cases rule_accepted new_rule_id t (Some d) conn)
    as [[_ Hno]|(d' & rule_type' & p' & s' & pid & sid & [= <-] & Hty' & Hp' & Hs'
                 & _ & _ & Hpid & Hsid & _ & Hrun')].
  { exfalso. apply (Hno rid). by rewrite Hrun. }
  rewrite Hty in Hty'. rewrite Hp in Hp'. rewrite Hs in Hs'.
  injection Hty' as <-. injection Hp' as <-. injection Hs' as <-.
  rewrite Hrun in Hrun'. injection Hrun' as -> ->. fold db in Hpid, Hsid |- *.
  rewrite get_compatibility_rule_run. cbn [fst store Catalog.store Catalog.connect].
  apply elem_of_template_choices in Hpid
    as (pc & ? & ? & Hpc & _ & _ & _ & _ & _ & [= -> ->]).
  apply elem_of_template_choices in Hsid
    as (sc & ? & ? & Hsc & _ & _ & _ & _ & _ & [= -> ->]).
  unfold Catalog.compatibility_rule_rows, add_rule.
  cbn [CompatibilityRules OptionChoices]. rewrite bind_app.
  replace (CompatibilityRules db ≫= _) with (@nil Catalog.rule_row).
  2:{ symmetry. apply elem_of_nil_inv. intros row. unfold_query.
      intros (cr & (pc' & (sc' & [Hid _] & _) & _) & Hcr). by apply (Hfresh cr). }
  cbn [app].
  destruct (filter_head_elem (λ pc', choice_id pc = choice_id pc') (OptionChoices db) pc)
    as (pc0 & pcs & Hpcs & Hpc0 & Hpc0in); [done..|].
  destruct (filter_head_elem (λ sc', choice_id sc = choice_id sc') (OptionChoices db) sc)
    as (sc0 & scs & Hscs & Hsc0 & Hsc0in); [done..|].
  rewrite bind_singleton.
  cbn [primary_choice_id secondary_choice_id rule_id rule_type].
  rewrite Hpcs.
  erewrite head_bind_cons.
  2:{ rewrite Hscs, bind_cons. rewrite bool_decide_eq_true_2 by done. reflexivity. }
  unfold Catalog.dict_of_rule. cbn.
  by rewrite (Hkey pc pc0), (Hkey sc sc0).
Qed.

Lemma created_rule_is_read_back_witness :
  (Catalog.get_compatibility_rule 1000
     (Catalog.connect (T1_with [mkRule 1000 "INCOMPATIBLE_WITH" 100 111]))).1
  = Returns (Catalog.Reply
               (Catalog.ReplyObject
                  {[ "rule_id" := PyUuid 1000;
                     "rule_type" := PyStr "INCOMPATIBLE_WITH";
                     "primary_choice_str_id" := PyStr "red";
                     "secondary_choice_str_id" := PyStr "L" ]}) 200).
Proof.
  apply (created_rule_is_read_back accept_all count_from_1000 "T1"
           {[ "rule_type" := "INCOMPATIBLE_WITH"; "primary_choice_str_id" := "red";
              "secondary_choice_str_id" := "L" ]}
           "INCOMPATIBLE_WITH" "red" "L" (connect (T1_with [])) 1000
           {| store := T1_with [mkRule 1000 "INCOMPATIBLE_WITH" 100 111];
              log := [Execute (SelectChoicesForRule "T1" "red" "L"); Commit;
                      Execute (InsertCompatibilityRule "INCOMPATIBLE_WITH" 100 111);
                      Commit] |}).
  - by vm_compute.
  - by vm_compute.
  - by vm_compute.
  - by vm_compute.
  - intros cr Hcr. by apply elem_of_nil in Hcr.
  - intros oc oc' Hoc Hoc' Hid. cbn in Hoc, Hoc'.
    enumerate Hoc; enumerate Hoc'; done.
Defined.

(** X20.  A parent just created is found.  After a 201 from a template creation,
    a category creation under the returned template string identifier is
    never answered 404; after a 201 from a category creation, neither is a
    choice creation under the returned category string identifier. *)
Theorem created_parent_is_found sch (d d' : gmap string pyvalue) conn conn' fields error :
  (Catalog.create_product_template sch (Some d) conn
   = (Returns (Catalog.Reply (Catalog.ReplyObject fields) 201), conn') →
   ∃ t, fields !! "template_str_id" = Some (PyStr t)
        ∧ (Catalog.create_option_category sch t (Some d')
             (Catalog.connect (Catalog.store conn'))).1
          ≠ Returns (Catalog.Reply (Catalog.ReplyError error) 404))
  ∧ (∀ t, Catalog.create_option_category sch t (Some d) conn
          = (Returns (Catalog.Reply (Catalog.ReplyObject fields) 201), conn') →
     ∃ c, fields !! "category_str_id" = Some (PyStr c)
          ∧ (Catalog.create_option_choice sch c (Some d')
               (Catalog.connect (Catalog.store conn'))).1
            ≠ Returns (Catalog.Reply (Catalog.ReplyError error) 404)).
Proof.
  split.
  - intros Hrun.
    destruct (d !! "template_str_id") as [str_id|] eqn:Hs;
      [|unfold Catalog.create_product_template in Hrun; by rewrite Hs in Hrun].
    destruct (d !! "name") as [name|] eqn:Hn;
      [|unfold Catalog.create_product_template in Hrun; by rewrite Hs, Hn in Hrun].
    destruct (d !! "base_price") as [price|] eqn:Hp;
      [|unfold Catalog.create_product_template in Hrun; by rewrite Hs, Hn, Hp in Hrun].
    rewrite (create_product_template_run sch d str_id name price) in Hrun by done.
    cbn zeta in Hrun.
    destruct (Catalog.template_accepted sch _ str_id name price); [|done].
    injection Hrun as <- <-.
    set (row := Catalog.template_row sch (Catalog.store conn) str_id name price).
    exists (pt_str_id row). split; [done|]. cbn [Catalog.store].
    destruct (d' !! "category_str_id") as [str_id'|] eqn:Hs';
      [|unfold Catalog.create_option_category; by rewrite Hs'].
    destruct (d' !! "name") as [name'|] eqn:Hn';
      [|unfold Catalog.create_option_category; by rewrite Hs', Hn'].
    rewrite (create_option_category_run sch _ d' str_id' name') by done.
    cbn zeta. cbn [Catalog.store Catalog.connect Catalog.add_template ProductTemplates].
    rewrite filter_app, filter_cons, decide_True, filter_nil by done.
    destruct (filter _ (ProductTemplates (Catalog.store conn)));
      cbn [app fmap list_fmap head];
      by destruct (Catalog.category_accepted sch _ _ _ _).
  - intros t Hrun.
    destruct (d !! "category_str_id") as [str_id|] eqn:Hs;
      [|unfold Catalog.create_option_category in Hrun; by rewrite Hs in Hrun].
    destruct (d !! "name") as [name|] eqn:Hn;
      [|unfold Catalog.create_option_category in Hrun; by rewrite Hs, Hn in Hrun].
    rewrite (create_option_category_run sch t d str_id name) in Hrun by done.
    cbn zeta in Hrun.
    destruct (head (template_id <$> _)) as [tid|]; [|done].
    destruct (Catalog.category_accepted sch _ _ str_id name); [|done].
    injection Hrun as <- <-.
    set (row := Catalog.category_row sch (Catalog.store conn) tid str_id name).
    exists (cat_str_id row). split; [done|]. cbn [Catalog.store].
    destruct (d' !! "choice_str_id") as [str_id'|] eqn:Hs';
      [|unfold Catalog.create_option_choice; by rewrite Hs'].
    destruct (d' !! "name") as [name'|] eqn:Hn';
      [|unfold Catalog.create_option_choice; by rewrite Hs', Hn'].
    destruct (d' !! "price_delta") as [price'|] eqn:Hp';
      [|unfold Catalog.create_option_choice; by rewrite Hs', Hn', Hp'].
    rewrite (create_option_choice_run sch _ d' str_id' name' price') by done.
    cbn zeta. cbn [Catalog.store Catalog.connect Catalog.add_category OptionCategories].
    rewrite filter_app, filter_cons, decide_True, filter_nil by done.
    destruct (filter _ (OptionCategories (Catalog.store conn)));
      cbn [app fmap list_fmap head];
      by destruct (Catalog.choice_accepted sch _ _ _ _ _).
Qed.

Lemma created_parent_is_found_witness :
  (Catalog.create_option_category plain_schema "T2"
     (Some {[ "category_str_id" := PyStr "LID"; "name" := PyStr "Lid" ]})
     (Catalog.connect
        (Catalog.add_template wardrobe (mkTemplate 2 "T2" "Mug" (Decimal 899 2))))).1
  ≠ Returns (Catalog.Reply
               (Catalog.ReplyError "Product template with id 'T2' not found.") 404).
Proof.
  destruct (created_parent_is_found plain_schema
              {[ "template_str_id" := PyStr "T2"; "name" := PyStr "Mug";
                 "base_price" := PyFloat (Decimal 899 2) ]}
              {[ "category_str_id" := PyStr "LID"; "name" := PyStr "Lid" ]}
              (Catalog.connect wardrobe)
              {| Catalog.store :=
                   Catalog.add_template wardrobe (mkTemplate 2 "T2" "Mug" (Decimal 899 2));
                 Catalog.log :=
                   [Catalog.Execute
                      (Catalog.InsertProductTemplate (PyStr "T2") (PyStr "Mug")
                         (PyFloat (Decimal 899 2)));
                    Catalog.Commit] |}
              {[ "template_id" := PyUuid 2; "template_str_id" := PyStr "T2" ]}
              "Product template with id 'T2' not found.") as [Htemplate _].
  destruct Htemplate as (t & Ht & Hfound); [by vm_compute|].
  assert (t = "T2") as -> by (vm_compute in Ht; congruence).
  exact Hfound.
Defined.
